(** * WebGPU-Demo: the initialization flow, verified

    The program ([src/main.ts]) is one asynchronous procedure, [init],
    run once when the page has loaded, and two helpers,
    [fetchShaderFile] and [createGPUBuffer]; [src/unnamed/part_000] is
    a second version of the same flow.  Everything the program does is a call into the browser
    (WebGPU, DOM, fetch, console), so the embedding is a small monad
    that reads a [Browser] (what the page and the platform answer),
    threads a [State] (the calls issued so far and the GPU buffers
    allocated) and may end in a thrown JavaScript error.

    JavaScript numbers are IEEE binary64 values: they are Rocq's
    primitive floats.  Sizes, offsets and counts are integers ([Z]). *)

From Stdlib Require Import ZArith Lia Floats String Ascii.
From stdpp Require Import base list.

Set Warnings "-inexact-float".
Local Open Scope string_scope.
Local Open Scope Z_scope.

(** ** JavaScript values used by the program *)

(** Errors that can end a run: the [Error] objects the source throws,
    the errors the language itself raises (property access on [null],
    typed-array range and type checks), and whatever a platform call
    throws or rejects with. *)
Inductive JsError : Type :=
| Error (message : string)
| TypeError (message : string)
| RangeError (message : string)
| DOMException (name : string).

Inductive outcome (A : Type) : Type :=
| Returned (a : A)
| Thrown (e : JsError).
Arguments Returned {A} a.
Arguments Thrown {A} e.

(** The double-quote character of the template literals. *)
Definition dquote : string := String (ascii_of_nat 34) EmptyString.

(** *** Typed arrays *)

Inductive ElementType : Type :=
| Int8 | Uint8 | Uint8Clamped | Int16 | Uint16 | Int32 | Uint32
| Float16 | Float32 | Float64 | BigInt64 | BigUint64.

(** [Number] or [BigInt] elements (ECMAScript's [[ContentType]]). *)
Inductive ContentType : Type := NumberContent | BigIntContent.

Inductive Numeric : Type :=
| Num (x : float)
| BigInt (n : Z).

Definition BYTES_PER_ELEMENT (t : ElementType) : Z :=
  match t with
  | Int8 | Uint8 | Uint8Clamped => 1
  | Int16 | Uint16 | Float16 => 2
  | Int32 | Uint32 | Float32 => 4
  | Float64 | BigInt64 | BigUint64 => 8
  end.

Definition contentType (t : ElementType) : ContentType :=
  match t with
  | BigInt64 | BigUint64 => BigIntContent
  | _ => NumberContent
  end.

Definition ContentType_eqb (a b : ContentType) : bool :=
  match a, b with
  | NumberContent, NumberContent | BigIntContent, BigIntContent => true
  | _, _ => false
  end.

(** A typed array that owns its storage: [new Float32Array([...])]. *)
Record TypedArray : Type := {
  elementType : ElementType;
  elements : list Numeric
}.

(** [array.length] and [array.byteLength]. *)
Definition array_length (a : TypedArray) : Z := Z.of_nat (length (elements a)).
Definition byteLength (a : TypedArray) : Z :=
  array_length a * BYTES_PER_ELEMENT (elementType a).

Definition Float32Array (xs : list float) : TypedArray :=
  {| elementType := Float32; elements := map Num xs |}.

(** ** WebGPU objects and descriptors *)

Definition GPUTextureFormat : Type := string.

Record GPUDevice : Type := { device_label : string }.
Record GPUAdapter : Type := { adapter_device : GPUDevice }.

(** [navigator.gpu]: what [requestAdapter] resolves to ([None] is
    [null]) and the preferred canvas format. *)
Record GPU : Type := {
  gpu_adapter : option GPUAdapter;
  gpu_preferredCanvasFormat : GPUTextureFormat
}.

Inductive GPUCanvasContext : Type := CanvasContext (canvasId : string).
Inductive GPUTextureView : Type := CurrentTextureView (c : GPUCanvasContext).

(** A DOM element, with the properties the program reads from it. *)
Record Element : Type := {
  width : Z;
  height : Z;
  element_context : option GPUCanvasContext;   (* getContext("webgpu") *)
  element_src : option string                  (* getAttribute('src') *)
}.

(** [GPUBufferUsage] and [GPUTextureUsage] flags. *)
Definition GPUBufferUsage_COPY_DST : Z := 8.
Definition GPUBufferUsage_VERTEX : Z := 32.
Definition GPUTextureUsage_RENDER_ATTACHMENT : Z := 16.

Record GPUShaderModuleDescriptor : Type := { code : option string }.
(** A shader module is known by the descriptor it was created from. *)
Definition GPUShaderModule : Type := GPUShaderModuleDescriptor.

Record GPUCanvasConfiguration : Type := {
  cfg_device : GPUDevice;
  cfg_format : GPUTextureFormat;
  cfg_usage : option Z;
  cfg_alphaMode : string
}.

Record GPUBufferDescriptor : Type := {
  size : Z;
  usage : Z;
  mappedAtCreation : bool
}.

(** The JavaScript handle of a GPU buffer: its identity and its
    read-only attributes.  The mutable part lives in the [State]. *)
Record GPUBuffer : Type := {
  buffer_id : nat;
  buffer_size : Z;
  buffer_usage : Z
}.

Inductive GPUVertexFormat : Type := float32x2 | float32x3 | float32x4.
Inductive GPUVertexStepMode : Type := step_vertex | step_instance.
Inductive GPUPrimitiveTopology : Type :=
| point_list | line_list | line_strip | triangle_list | triangle_strip.

Record GPUVertexAttribute : Type := {
  shaderLocation : Z;
  offset : Z;
  format : GPUVertexFormat
}.

Record GPUVertexBufferLayout : Type := {
  attributes : list GPUVertexAttribute;
  arrayStride : Z;
  stepMode : GPUVertexStepMode
}.

Inductive GPUBindGroupLayout : Type := BindGroupLayout (index : nat).
Record GPUPipelineLayoutDescriptor : Type := {
  bindGroupLayouts : list GPUBindGroupLayout
}.
Definition GPUPipelineLayout : Type := GPUPipelineLayoutDescriptor.

(** The [layout] member: the string ["auto"] or a pipeline layout. *)
Inductive GPULayoutMode : Type :=
| layout_auto
| layout_explicit (l : GPUPipelineLayout).

Record GPUVertexState : Type := {
  module : GPUShaderModule;
  entryPoint : string;
  buffers : list GPUVertexBufferLayout
}.

Record GPUColorTargetState : Type := { target_format : GPUTextureFormat }.

Record GPUFragmentState : Type := {
  fragment_module : GPUShaderModule;
  fragment_entryPoint : string;
  targets : list GPUColorTargetState
}.

Record GPUPrimitiveState : Type := { topology : GPUPrimitiveTopology }.

Record GPURenderPipelineDescriptor : Type := {
  vertex : GPUVertexState;
  fragment : GPUFragmentState;
  primitive : GPUPrimitiveState;
  layout : GPULayoutMode
}.
Definition GPURenderPipeline : Type := GPURenderPipelineDescriptor.

Module Color.
Record t : Type := { r : float; g : float; b : float; a : float }.
End Color.
Definition GPUColor : Type := Color.t.

Record GPURenderPassColorAttachment : Type := {
  clearValue : GPUColor;
  loadOp : string;
  storeOp : string;
  view : GPUTextureView
}.

Record GPURenderPassDescriptor : Type := {
  colorAttachments : list GPURenderPassColorAttachment
}.

Inductive GPUCommandEncoder : Type := CommandEncoder.
Inductive GPURenderPassEncoder : Type := RenderPassEncoder (e : GPUCommandEncoder).
Inductive GPUCommandBuffer : Type := CommandBuffer (e : GPUCommandEncoder).

Inductive ConsoleArg : Type :=
| ArgString (s : string)
| ArgError (e : JsError).

(** ** Calls into the browser *)

(** Every call the program makes into the platform, in the order made,
    is recorded as an event. *)
Inductive Event : Type :=
| RequestAdapter
| RequestDevice (adapter : GPUAdapter)
| Fetch (input : string)
| ResponseText (from : string)
| QuerySelector (selector : string)
| GetAttribute (name : string)
| GetContext (contextId : string)
| GetPreferredCanvasFormat
| Configure (c : GPUCanvasConfiguration)
| CreateShaderModule (d : GPUShaderModuleDescriptor)
| CreateBuffer (d : GPUBufferDescriptor)
| GetMappedRange (buffer : nat)
| Unmap (buffer : nat)
| WriteBuffer (buffer : nat) (bufferOffset : Z) (data : TypedArray)
              (dataOffset : Z) (count : Z)
| CreatePipelineLayout (d : GPUPipelineLayoutDescriptor)
| CreateRenderPipeline (d : GPURenderPipelineDescriptor)
| CreateCommandEncoder
| GetCurrentTexture
| CreateView
| BeginRenderPass (d : GPURenderPassDescriptor)
| SetViewport (x y w h minDepth maxDepth : Z)
| SetPipeline (p : GPURenderPipeline)
| SetVertexBuffer (slot : Z) (buffer : nat)
| Draw (vertexCount : Z)
| End
| Finish
| Submit (commandBuffers : list GPUCommandBuffer)
| ConsoleError (args : list ConsoleArg)
| ConsoleWarn (args : list ConsoleArg).

Record Response : Type := {
  url : string;
  ok : bool;
  body : string
}.

(** The page and the platform, as far as the program can observe them.
    [faults] says which calls the platform answers by throwing (or, for
    an asynchronous call, by rejecting): the theorems hold whatever it
    says, so no assumption is made on the validation a browser does. *)
Record Browser : Type := {
  navigator_gpu : option GPU;
  document_querySelector : string -> option Element;
  network : string -> Response;
  faults : Event -> option JsError
}.

(** ** Mutable state *)

Inductive GPUBufferMapState : Type := unmapped | pending | mapped.

(** What a buffer holds.  [Stored t xs]: the buffer, read as an array of
    [t] elements, starts with [xs] (each converted to [t]) and is zero
    after them. *)
Inductive BufferData : Type :=
| Zeroed
| Stored (t : ElementType) (xs : list Numeric).

Record BufferState : Type := {
  mapState : GPUBufferMapState;
  data : BufferData
}.

Record State : Type := {
  trace : list Event;
  gpuBuffers : list BufferState
}.

Definition initial_state : State := {| trace := []; gpuBuffers := [] |}.

Definition record_event (e : Event) (st : State) : State :=
  {| trace := trace st ++ [e]; gpuBuffers := gpuBuffers st |}.

Definition set_buffers (bs : list BufferState) (st : State) : State :=
  {| trace := trace st; gpuBuffers := bs |}.

(** ** The monad of the program *)

Definition M (A : Type) : Type := Browser -> State -> outcome A * State.

Definition ret {A : Type} (x : A) : M A := fun _ st => (Returned x, st).

Definition bind {A B : Type} (m : M A) (k : A -> M B) : M B :=
  fun w st =>
    match m w st with
    | (Returned x, st') => k x w st'
    | (Thrown e, st') => (Thrown e, st')
    end.

Definition throw {A : Type} (e : JsError) : M A := fun _ st => (Thrown e, st).

(** [try { body } catch (error) { handler }]. *)
Definition try_catch {A : Type} (body : M A) (handler : JsError -> M A) : M A :=
  fun w st =>
    match body w st with
    | (Returned x, st') => (Returned x, st')
    | (Thrown e, st') => handler e w st'
    end.

Declare Scope js_scope.
Delimit Scope js_scope with js.
Notation "x <- m ;; k" := (bind m (fun x => k))
  (at level 100, m at next level, k at level 200, right associativity) : js_scope.
Notation "m ;; k" := (bind m (fun _ => k))
  (at level 100, k at level 200, right associativity) : js_scope.
Local Open Scope js_scope.

(** A call into the platform: it is recorded, then the platform either
    answers or throws. *)
Definition api (c : Event) : M unit :=
  fun w st =>
    match faults w c with
    | Some e => (Thrown e, record_event c st)
    | None => (Returned tt, record_event c st)
    end.

(** The console never throws. *)
Definition console_error (args : list ConsoleArg) : M unit :=
  fun _ st => (Returned tt, record_event (ConsoleError args) st).
Definition console_warn (args : list ConsoleArg) : M unit :=
  fun _ st => (Returned tt, record_event (ConsoleWarn args) st).

(** [o.p] where [o] may be [null]: reading a property of [null] throws a
    [TypeError] before anything else of the expression is evaluated. *)
Definition deref {A : Type} (o : option A) (p : string) : M A :=
  match o with
  | Some x => ret x
  | None => throw (TypeError ("Cannot read properties of null (reading '" ++ p ++ "')"))
  end.

Definition run {A : Type} (m : M A) (w : Browser) : outcome A * State :=
  m w initial_state.

Definition ask : M Browser := fun w st => (Returned w, st).

(** ** The platform interface *)

Definition requestAdapter (gpu : GPU) : M (option GPUAdapter) :=
  api RequestAdapter ;; ret (gpu_adapter gpu).

Definition requestDevice (adapter : GPUAdapter) : M GPUDevice :=
  api (RequestDevice adapter) ;; ret (adapter_device adapter).

Definition getPreferredCanvasFormat (gpu : GPU) : M GPUTextureFormat :=
  api GetPreferredCanvasFormat ;; ret (gpu_preferredCanvasFormat gpu).

Definition fetch (input : string) : M Response :=
  api (Fetch input) ;; w <- ask ;; ret (network w input).

Definition text (response : Response) : M string :=
  api (ResponseText (url response)) ;; ret (body response).

Definition querySelector (selector : string) : M (option Element) :=
  api (QuerySelector selector) ;; w <- ask ;; ret (document_querySelector w selector).

Definition getAttribute (e : Element) (name : string) : M (option string) :=
  api (GetAttribute name) ;; ret (element_src e).

Definition getContext (canvas : Element) (contextId : string) : M (option GPUCanvasContext) :=
  api (GetContext contextId) ;; ret (element_context canvas).

Definition configure (context : GPUCanvasContext) (c : GPUCanvasConfiguration) : M unit :=
  api (Configure c).

Definition getCurrentTexture_createView (context : GPUCanvasContext) : M GPUTextureView :=
  api GetCurrentTexture ;; api CreateView ;; ret (CurrentTextureView context).

Definition createShaderModule (device : GPUDevice) (d : GPUShaderModuleDescriptor)
  : M GPUShaderModule :=
  api (CreateShaderModule d) ;; ret d.

Definition createPipelineLayout (device : GPUDevice) (d : GPUPipelineLayoutDescriptor)
  : M GPUPipelineLayout :=
  api (CreatePipelineLayout d) ;; ret d.

Definition createRenderPipeline (device : GPUDevice) (d : GPURenderPipelineDescriptor)
  : M GPURenderPipeline :=
  api (CreateRenderPipeline d) ;; ret d.

Definition createCommandEncoder (device : GPUDevice) : M GPUCommandEncoder :=
  api CreateCommandEncoder ;; ret CommandEncoder.

Definition beginRenderPass (e : GPUCommandEncoder) (d : GPURenderPassDescriptor)
  : M GPURenderPassEncoder :=
  api (BeginRenderPass d) ;; ret (RenderPassEncoder e).

Definition setViewport (p : GPURenderPassEncoder) (x y w h minDepth maxDepth : Z) : M unit :=
  api (SetViewport x y w h minDepth maxDepth).

Definition setPipeline (p : GPURenderPassEncoder) (pipeline : GPURenderPipeline) : M unit :=
  api (SetPipeline pipeline).

Definition setVertexBuffer (p : GPURenderPassEncoder) (slot : Z) (buffer : GPUBuffer) : M unit :=
  api (SetVertexBuffer slot (buffer_id buffer)).

Definition draw (p : GPURenderPassEncoder) (vertexCount : Z) : M unit :=
  api (Draw vertexCount).

Definition end_pass (p : GPURenderPassEncoder) : M unit := api End.

Definition finish (e : GPUCommandEncoder) : M GPUCommandBuffer :=
  api Finish ;; ret (CommandBuffer e).

Definition submit (device : GPUDevice) (commandBuffers : list GPUCommandBuffer) : M unit :=
  api (Submit commandBuffers).

(** *** GPU buffers *)

(** [device.createBuffer]: the new buffer gets the next free slot of the
    store; it is born mapped when the descriptor asks for it. *)
Definition alloc_buffer (d : GPUBufferDescriptor) : M GPUBuffer :=
  fun _ st =>
    (Returned {| buffer_id := length (gpuBuffers st);
                 buffer_size := size d;
                 buffer_usage := usage d |},
     set_buffers
       (gpuBuffers st ++
          [{| mapState := if mappedAtCreation d then mapped else unmapped;
              data := Zeroed |}]) st).

Definition createBuffer (device : GPUDevice) (d : GPUBufferDescriptor) : M GPUBuffer :=
  api (CreateBuffer d) ;; alloc_buffer d.

(** The [ArrayBuffer] that [getMappedRange()] returns: the whole buffer. *)
Record ArrayBuffer : Type := {
  ab_buffer : nat;
  ab_byteLength : Z
}.

Definition getMappedRange (buffer : GPUBuffer) : M ArrayBuffer :=
  api (GetMappedRange (buffer_id buffer)) ;;
  ret {| ab_buffer := buffer_id buffer; ab_byteLength := buffer_size buffer |}.

Definition set_mapState (s : GPUBufferMapState) (bs : BufferState) : BufferState :=
  {| mapState := s; data := data bs |}.

Definition set_data (d : BufferData) (bs : BufferState) : BufferState :=
  {| mapState := mapState bs; data := d |}.

Definition update_buffer (f : BufferState -> BufferState) (id : nat) : M unit :=
  fun _ st => (Returned tt, set_buffers (alter f id (gpuBuffers st)) st).

Definition unmap (buffer : GPUBuffer) : M unit :=
  api (Unmap (buffer_id buffer)) ;;
  update_buffer (set_mapState unmapped) (buffer_id buffer).

(** [device.queue.writeBuffer(buffer, bufferOffset, data, dataOffset, size)]
    with both offsets 0 and [size] the length of [data], as the program
    calls it. *)
Definition writeBuffer (device : GPUDevice) (buffer : GPUBuffer) (bufferOffset : Z)
    (source : TypedArray) (dataOffset : Z) (count : Z) : M unit :=
  api (WriteBuffer (buffer_id buffer) bufferOffset source dataOffset count) ;;
  update_buffer (set_data (Stored (elementType source) (elements source)))
                (buffer_id buffer).

(** *** Typed-array views (ECMAScript) *)

(** A typed array over an [ArrayBuffer]: [new Float32Array(arrayBuffer)]. *)
Record TypedArrayView : Type := {
  view_type : ElementType;
  view_buffer : ArrayBuffer;
  view_length : Z
}.

(** The constructor throws a [RangeError] unless the byte length of the
    buffer is a multiple of the element size. *)
Definition new_TypedArray (t : ElementType) (ab : ArrayBuffer) : M TypedArrayView :=
  if ab_byteLength ab mod BYTES_PER_ELEMENT t =? 0
  then ret {| view_type := t; view_buffer := ab;
              view_length := ab_byteLength ab / BYTES_PER_ELEMENT t |}
  else throw (RangeError "byte length of the buffer should be a multiple of the element size").

(** [target.set(source)], offset 0: a [RangeError] when the source has
    more elements than the target, then a [TypeError] when one holds
    BigInts and the other Numbers; otherwise the elements are stored,
    converted to the target's element type. *)
Definition typedArray_set (target : TypedArrayView) (source : TypedArray) : M unit :=
  if view_length target <? array_length source
  then throw (RangeError "offset is out of bounds")
  else if negb (ContentType_eqb (contentType (view_type target))
                                (contentType (elementType source)))
  then throw (TypeError "Cannot mix BigInt and other types, use explicit conversions")
  else update_buffer (set_data (Stored (view_type target) (elements source)))
                     (ab_buffer (view_buffer target)).

Definition ElementType_eqb (s t : ElementType) : bool :=
  match s, t with
  | Int8, Int8 | Uint8, Uint8 | Uint8Clamped, Uint8Clamped
  | Int16, Int16 | Uint16, Uint16 | Int32, Int32 | Uint32, Uint32
  | Float16, Float16 | Float32, Float32 | Float64, Float64
  | BigInt64, BigInt64 | BigUint64, BigUint64 => true
  | _, _ => false
  end.

(** [buffer instanceof Float32Array] and the like. *)
Definition instanceof (buffer : TypedArray) (t : ElementType) : bool :=
  ElementType_eqb (elementType buffer) t.

(** ** The shader registry ([./shaders-map]) *)

Record ShaderEntry : Type := {
  id : string;
  src : string
}.

(** JavaScript truthiness of [src]: [undefined] and the empty string are
    falsy.  [truthy src] is the string that [src] holds when [!src] is
    false. *)
Definition truthy (src : option string) : option string :=
  match src with
  | None => None
  | Some s => if String.eqb s "" then None else Some s
  end.

(** ** [src/main.ts] *)

Module Main.
Section Program.

(** The registry is imported from [./shaders-map]: a parameter here. *)
Variable shadersMap : list ShaderEntry.

(** The [for] loop of [fetchShaderFile]: the [src] of the first entry
    whose [id] is the one asked for, [undefined] when there is none. *)
Fixpoint find_src (entries : list ShaderEntry) (shaderId : string) : option string :=
  match entries with
  | [] => None
  | e :: rest =>
      if String.eqb (id e) shaderId then Some (src e) else find_src rest shaderId
  end.

Definition fetchShaderFile (shaderId : string) : M (option string) :=
  let src := find_src shadersMap shaderId in
  match truthy src with
  | None =>
      console_error
        [ArgString ("Failed to find shader with " ++ dquote ++ shaderId ++ dquote ++ "!")] ;;
      ret None
  | Some src =>
      try_catch
        (response <- fetch src ;;
         if negb (ok response) then throw (Error "Network response was not ok.")
         else
           content <- text response ;;
           ret (Some content))
        (fun error =>
           console_error
             [ArgString ("Error while fetching shader file " ++ dquote ++ shaderId
                           ++ dquote ++ ":");
              ArgError error] ;;
           ret None)
  end.

(** [async function loadModel(id) { }]: an empty body. *)
Definition loadModel (modelId : string) : M unit := ret tt.

(** [typeof gpuBuffer]. *)
Definition typeof_gpuBuffer : string := "object".

Definition createGPUBuffer (device : GPUDevice) (buffer : TypedArray) (usage : Z)
  : M GPUBuffer :=
  let bufferDesc :=
    {| size := byteLength buffer; usage := usage; mappedAtCreation := true |} in
  gpuBuffer <- createBuffer device bufferDesc ;;
  (if instanceof buffer Float32 then
     range <- getMappedRange gpuBuffer ;;
     writeArrayNormal <- new_TypedArray Float32 range ;;
     typedArray_set writeArrayNormal buffer
   else if instanceof buffer Uint32 then
     range <- getMappedRange gpuBuffer ;;
     writeArrayNormal <- new_TypedArray Uint32 range ;;
     typedArray_set writeArrayNormal buffer
   else if instanceof buffer Uint16 then
     range <- getMappedRange gpuBuffer ;;
     writeArrayNormal <- new_TypedArray Uint16 range ;;
     typedArray_set writeArrayNormal buffer
   else if instanceof buffer Uint8 then
     range <- getMappedRange gpuBuffer ;;
     writeArrayNormal <- new_TypedArray Uint8 range ;;
     typedArray_set writeArrayNormal buffer
   else
     range <- getMappedRange gpuBuffer ;;
     writeArrayNormal <- new_TypedArray Float32 range ;;
     typedArray_set writeArrayNormal buffer ;;
     console_error [ArgString "Unhandled buffer format "; ArgString typeof_gpuBuffer]) ;;
  unmap gpuBuffer ;;
  ret gpuBuffer.

(** The demo vertices: position (XYZW) and colour (RGBA) of each
    corner of the triangle. *)
Definition vertices : TypedArray :=
  Float32Array
    [ 0.0; 0.6; 0; 1;
      1; 0; 0; 1;
      -0.5; -0.6; 0; 1;
      0; 1; 0; 1;
      0.5; -0.6; 0; 1;
      0; 0; 1; 1 ]%float.

Definition vertexBufferLayout : list GPUVertexBufferLayout :=
  [ {| attributes :=
         [ {| shaderLocation := 0; offset := 0; format := float32x4 |};
           {| shaderLocation := 1; offset := 16; format := float32x4 |} ];
       arrayStride := 32;
       stepMode := step_vertex |} ].

Definition clearColor : GPUColor :=
  {| Color.r := 0.0; Color.g := 0.5; Color.b := 1.0; Color.a := 1.0 |}%float.

Definition init : M unit :=
  w <- ask ;;
  match navigator_gpu w with
  | None => throw (Error "WebGPU not supported.")
  | Some gpu =>
  adapter <- requestAdapter gpu ;;
  match adapter with
  | None => throw (Error "Couldn't request WebGPU adapter.")
  | Some adapter =>
  device <- requestDevice adapter ;;
  shader_demo <- fetchShaderFile "demo" ;;
  shaderModule_demo <- createShaderModule device {| code := shader_demo |} ;;
  canvas <- querySelector "#webgpu-canvas" ;;
  (if canvas is None then console_error [ArgString "No canvas found to render to!"]
   else ret tt) ;;
  canvas <- deref canvas "getContext" ;;
  context <- getContext canvas "webgpu" ;;
  context <- deref context "configure" ;;
  canvasFormat <- getPreferredCanvasFormat gpu ;;
  configure context
    {| cfg_device := device;
       cfg_format := canvasFormat;
       cfg_usage := Some GPUTextureUsage_RENDER_ATTACHMENT;
       cfg_alphaMode := "premultiplied" |} ;;
  vertexBuffer <- createGPUBuffer device vertices GPUBufferUsage_VERTEX ;;
  let pipelineLayoutDesc := {| bindGroupLayouts := [] |} in
  layout <- createPipelineLayout device pipelineLayoutDesc ;;
  targetFormat <- getPreferredCanvasFormat gpu ;;
  let pipelineDescriptor :=
    {| vertex :=
         {| module := shaderModule_demo;
            entryPoint := "vertex_main";
            buffers := vertexBufferLayout |};
       fragment :=
         {| fragment_module := shaderModule_demo;
            fragment_entryPoint := "fragment_main";
            targets := [ {| target_format := targetFormat |} ] |};
       primitive := {| topology := triangle_list |};
       layout := layout_explicit layout |} in
  renderPipeline <- createRenderPipeline device pipelineDescriptor ;;
  commandEncoder <- createCommandEncoder device ;;
  view <- getCurrentTexture_createView context ;;
  let renderPassDesc :=
    {| colorAttachments :=
         [ {| clearValue := clearColor;
              loadOp := "clear";
              storeOp := "store";
              view := view |} ] |} in
  passEncoder <- beginRenderPass commandEncoder renderPassDesc ;;
  setViewport passEncoder 0 0 (width canvas) (height canvas) 0 1 ;;
  setPipeline passEncoder renderPipeline ;;
  setVertexBuffer passEncoder 0 vertexBuffer ;;
  draw passEncoder 3 ;;
  end_pass passEncoder ;;
  commandBuffer <- finish commandEncoder ;;
  submit device [commandBuffer]
  end
  end.

End Program.
End Main.

(** ** [src/unnamed/part_000]

    The other source file of the repository: the same flow, with the
    shader path read from a [<script>] tag of the page, the vertex
    buffer filled by [queue.writeBuffer], no viewport call and the
    pipeline layout left to the implementation. *)

Module Part000.

(** [fetch(src)] turns its argument into a string: [null] becomes
    ["null"]. *)
Definition to_request (src : option string) : string := default "null" src.

Definition fetchShaderFile (shaderId : string) : M (option string) :=
  scriptElmnt <- querySelector ("#" ++ shaderId) ;;
  match scriptElmnt with
  | None =>
      console_warn
        [ArgString ("Script tag with id " ++ dquote ++ shaderId ++ dquote ++ " not found!")] ;;
      ret None
  | Some scriptElmnt =>
      src <- getAttribute scriptElmnt "src" ;;
      try_catch
        (response <- fetch (to_request src) ;;
         if negb (ok response) then throw (Error "Network response was not ok.")
         else
           content <- text response ;;
           ret (Some content))
        (fun error =>
           console_error
             [ArgString ("Error while fetching shader file " ++ dquote ++ shaderId
                           ++ dquote ++ ":");
              ArgError error] ;;
           ret None)
  end.

Definition vertices : TypedArray := Main.vertices.

Definition vertexBuffers : list GPUVertexBufferLayout :=
  [ {| attributes :=
         [ {| shaderLocation := 0; offset := 0; format := float32x4 |};
           {| shaderLocation := 1; offset := 16; format := float32x4 |} ];
       arrayStride := 32;
       stepMode := step_vertex |} ].

Definition clearColor : GPUColor :=
  {| Color.r := 0.0; Color.g := 0.5; Color.b := 1.0; Color.a := 1.0 |}%float.

Definition init : M unit :=
  w <- ask ;;
  match navigator_gpu w with
  | None => throw (Error "WebGPU not supported.")
  | Some gpu =>
  adapter <- requestAdapter gpu ;;
  match adapter with
  | None => throw (Error "Couldn't request WebGPU adapter.")
  | Some adapter =>
  device <- requestDevice adapter ;;
  shader_demo <- fetchShaderFile "shader-demo" ;;
  shaderModule_demo <- createShaderModule device {| code := shader_demo |} ;;
  canvas <- querySelector "#webgpu-canvas" ;;
  (if canvas is None then console_error [ArgString "No canvas found to render to!"]
   else ret tt) ;;
  canvas <- deref canvas "getContext" ;;
  context <- getContext canvas "webgpu" ;;
  context <- deref context "configure" ;;
  canvasFormat <- getPreferredCanvasFormat gpu ;;
  configure context
    {| cfg_device := device;
       cfg_format := canvasFormat;
       cfg_usage := None;
       cfg_alphaMode := "premultiplied" |} ;;
  vertexBuffer <-
    createBuffer device
      {| size := byteLength vertices;
         usage := Z.lor GPUBufferUsage_VERTEX GPUBufferUsage_COPY_DST;
         mappedAtCreation := false |} ;;
  writeBuffer device vertexBuffer 0 vertices 0 (array_length vertices) ;;
  targetFormat <- getPreferredCanvasFormat gpu ;;
  let pipelineDescriptor :=
    {| vertex :=
         {| module := shaderModule_demo;
            entryPoint := "vertex_main";
            buffers := vertexBuffers |};
       fragment :=
         {| fragment_module := shaderModule_demo;
            fragment_entryPoint := "fragment_main";
            targets := [ {| target_format := targetFormat |} ] |};
       primitive := {| topology := triangle_list |};
       layout := layout_auto |} in
  renderPipeline <- createRenderPipeline device pipelineDescriptor ;;
  commandEncoder <- createCommandEncoder device ;;
  view <- getCurrentTexture_createView context ;;
  let renderPassDesc :=
    {| colorAttachments :=
         [ {| clearValue := clearColor;
              loadOp := "clear";
              storeOp := "store";
              view := view |} ] |} in
  passEncoder <- beginRenderPass commandEncoder renderPassDesc ;;
  setPipeline passEncoder renderPipeline ;;
  setVertexBuffer passEncoder 0 vertexBuffer ;;
  draw passEncoder 3 ;;
  end_pass passEncoder ;;
  commandBuffer <- finish commandEncoder ;;
  submit device [commandBuffer]
  end
  end.

End Part000.

(** ** Concrete browsers, for running the program *)

(** A page with the canvas, a working adapter and a platform that never
    throws; the network serves [shaders/demo.wgsl]. *)
Definition demo_wgsl : string := "@vertex fn vertex_main() {} @fragment fn fragment_main() {}".

Definition the_device : GPUDevice := {| device_label := "" |}.
Definition the_gpu : GPU :=
  {| gpu_adapter := Some {| adapter_device := the_device |};
     gpu_preferredCanvasFormat := "bgra8unorm" |}.

Definition the_canvas : Element :=
  {| width := 640; height := 480;
     element_context := Some (CanvasContext "webgpu-canvas");
     element_src := None |}.

Definition the_script : Element :=
  {| width := 0; height := 0; element_context := None;
     element_src := Some "shaders/demo.wgsl" |}.

Definition good_browser : Browser :=
  {| navigator_gpu := Some the_gpu;
     document_querySelector := fun selector =>
       if String.eqb selector "#webgpu-canvas" then Some the_canvas
       else if String.eqb selector "#shader-demo" then Some the_script
       else None;
     network := fun input =>
       if String.eqb input "shaders/demo.wgsl"
       then {| url := input; ok := true; body := demo_wgsl |}
       else {| url := input; ok := false; body := "Not Found" |};
     faults := fun _ => None |}.

Definition demo_shadersMap : list ShaderEntry :=
  [ {| id := "demo"; src := "shaders/demo.wgsl" |} ].

(** The descriptor that the demo page's run hands to
    [createRenderPipeline]. *)
Definition demo_pipelineDescriptor : GPURenderPipelineDescriptor :=
  {| vertex :=
       {| module := {| code := Some demo_wgsl |};
          entryPoint := "vertex_main";
          buffers := Main.vertexBufferLayout |};
     fragment :=
       {| fragment_module := {| code := Some demo_wgsl |};
          fragment_entryPoint := "fragment_main";
          targets := [ {| target_format := "bgra8unorm" |} ] |};
     primitive := {| topology := triangle_list |};
     layout := layout_explicit {| bindGroupLayouts := [] |} |}.

(** The descriptor of the demo page's run in [src/unnamed/part_000]. *)
Definition part000_pipelineDescriptor : GPURenderPipelineDescriptor :=
  {| vertex := vertex demo_pipelineDescriptor;
     fragment := fragment demo_pipelineDescriptor;
     primitive := primitive demo_pipelineDescriptor;
     layout := layout_auto |}.

(** The same page on a browser without WebGPU, with an adapter that
    cannot be had, and without the canvas element. *)
Definition browser_without_gpu : Browser :=
  {| navigator_gpu := None;
     document_querySelector := document_querySelector good_browser;
     network := network good_browser;
     faults := faults good_browser |}.

Definition browser_without_adapter : Browser :=
  {| navigator_gpu := Some {| gpu_adapter := None; gpu_preferredCanvasFormat := "bgra8unorm" |};
     document_querySelector := document_querySelector good_browser;
     network := network good_browser;
     faults := faults good_browser |}.

Definition browser_without_canvas : Browser :=
  {| navigator_gpu := navigator_gpu good_browser;
     document_querySelector := fun _ => None;
     network := network good_browser;
     faults := faults good_browser |}.

(** ** What is read off a trace *)

(** The vertex counts of the draw calls, in order. *)
Definition draws (tr : list Event) : list Z :=
  omap (fun e => match e with Draw n => Some n | _ => None end) tr.

(** The command-buffer lists of the queue submissions, in order. *)
Definition submissions (tr : list Event) : list (list GPUCommandBuffer) :=
  omap (fun e => match e with Submit cbs => Some cbs | _ => None end) tr.

(** The render-pipeline descriptors requested, in order. *)
Definition pipelines (tr : list Event) : list GPURenderPipelineDescriptor :=
  omap (fun e => match e with CreateRenderPipeline d => Some d | _ => None end) tr.

(** The buffers unmapped, in order. *)
Definition unmaps (tr : list Event) : list nat :=
  omap (fun e => match e with Unmap i => Some i | _ => None end) tr.

(** What was written to the console as errors, in order. *)
Definition console_errors (tr : list Event) : list (list ConsoleArg) :=
  omap (fun e => match e with ConsoleError args => Some args | _ => None end) tr.

(** ** Reasoning about runs *)

(** [wp m w st Q]: running [m] on browser [w] from state [st] ends in an
    outcome and a state that satisfy [Q]. *)
Definition wp {A : Type} (m : M A) (w : Browser) (st : State)
    (Q : outcome A -> State -> Prop) : Prop :=
  Q (fst (m w st)) (snd (m w st)).

(** The state after some more events. *)
Definition add_events (evs : list Event) (st : State) : State :=
  {| trace := trace st ++ evs; gpuBuffers := gpuBuffers st |}.

(** The events the shader loader can produce. *)
Definition is_loader_event (e : Event) : bool :=
  match e with
  | Fetch _ | ResponseText _ | ConsoleError _ => true
  | _ => false
  end.

(** The element types [createGPUBuffer] has a branch for. *)
Definition supported (t : ElementType) : bool :=
  match t with
  | Float32 | Uint32 | Uint16 | Uint8 => true
  | _ => false
  end.

(** The element type of the view [createGPUBuffer] writes through. *)
Definition view_type_for (t : ElementType) : ElementType :=
  if supported t then t else Float32.

(** What [new T(range).set(source)] throws, if anything, for a range of
    [bytes] bytes. *)
Definition set_error (t : ElementType) (bytes : Z) (source : TypedArray) : option JsError :=
  if bytes mod BYTES_PER_ELEMENT t =? 0 then
    if bytes / BYTES_PER_ELEMENT t <? array_length source
    then Some (RangeError "offset is out of bounds")
    else if negb (ContentType_eqb (contentType t) (contentType (elementType source)))
    then Some (TypeError "Cannot mix BigInt and other types, use explicit conversions")
    else None
  else Some (RangeError "byte length of the buffer should be a multiple of the element size").

Definition unhandled_message : list ConsoleArg :=
  [ArgString "Unhandled buffer format "; ArgString "object"].

(** Source arrays used in examples. *)
Definition int8_four : TypedArray :=
  {| elementType := Int8; elements := [Num 1; Num 2; Num 3; Num 4]%float |}.
Definition int32_two : TypedArray :=
  {| elementType := Int32; elements := [Num 7; Num (-7)]%float |}.

(** What the loader logs for an id it does not find. *)
Definition not_found_message (shaderId : string) : list ConsoleArg :=
  [ArgString ("Failed to find shader with " ++ dquote ++ shaderId ++ dquote ++ "!")].

(** What the loader logs when the fetch fails with [error]. *)
Definition fetch_failed_message (shaderId : string) (error : JsError) : list ConsoleArg :=
  [ArgString ("Error while fetching shader file " ++ dquote ++ shaderId ++ dquote ++ ":");
   ArgError error].

(** What the theorems on [init] look at in a trace. *)
Record Observed : Type := {
  seen_pipelines : list GPURenderPipelineDescriptor;
  seen_draws : list Z;
  seen_submissions : list (list GPUCommandBuffer)
}.

Definition observed (tr : list Event) : Observed :=
  {| seen_pipelines := pipelines tr;
     seen_draws := draws tr;
     seen_submissions := submissions tr |}.

Definition nothing_seen : Observed :=
  {| seen_pipelines := []; seen_draws := []; seen_submissions := [] |}.

(** One more event. *)
Definition see (e : Event) (x : Observed) : Observed :=
  match e with
  | CreateRenderPipeline d =>
      {| seen_pipelines := seen_pipelines x ++ [d];
         seen_draws := seen_draws x; seen_submissions := seen_submissions x |}
  | Draw n =>
      {| seen_pipelines := seen_pipelines x;
         seen_draws := seen_draws x ++ [n]; seen_submissions := seen_submissions x |}
  | Submit cbs =>
      {| seen_pipelines := seen_pipelines x;
         seen_draws := seen_draws x; seen_submissions := seen_submissions x ++ [cbs] |}
  | _ => x
  end.

(** [wp] on what is observed: from any state whose trace shows [x],
    the run of [m] ends in an outcome and an observation that satisfy
    [Q]. *)
Definition wp_obs {A : Type} (m : M A) (w : Browser) (x : Observed)
    (Q : outcome A -> Observed -> Prop) : Prop :=
  forall st, observed (trace st) = x ->
             wp m w st (fun o st' => Q o (observed (trace st'))).

(** [m] makes no call that is observed. *)
Definition quiet {A : Type} (m : M A) : Prop :=
  forall w st, observed (trace (snd (m w st))) = observed (trace st).

(** What every render-pipeline descriptor of [src/main.ts] has: the
    vertex buffer layout, the topology and the pipeline layout. *)
Definition fixed_vertex_layout (d : GPURenderPipelineDescriptor) : Prop :=
  buffers (vertex d)
    = [ {| attributes :=
             [ {| shaderLocation := 0; offset := 0; format := float32x4 |};
               {| shaderLocation := 1; offset := 16; format := float32x4 |} ];
           arrayStride := 32;
           stepMode := step_vertex |} ]
  /\ topology (primitive d) = triangle_list.

(** What is observed of a run of [init]: the pipelines requested, the
    draws and the queue submissions. *)
Definition init_observation (layout_mode : GPULayoutMode)
    (o : outcome unit) (x : Observed) : Prop :=
  (seen_pipelines x = []
   \/ exists d, seen_pipelines x = [d]
                /\ fixed_vertex_layout d /\ layout d = layout_mode)
  /\ (seen_draws x = [] \/ seen_draws x = [3])
  /\ (seen_submissions x = []
      \/ seen_submissions x = [[CommandBuffer CommandEncoder]])
  /\ (o = Returned tt ->
      length (seen_pipelines x) = 1%nat
      /\ seen_draws x = [3]
      /\ seen_submissions x = [[CommandBuffer CommandEncoder]]).

(** The trace starts with [prefix]; it still does after more events. *)
Definition starts_with (prefix : list Event) (st : State) : Prop :=
  exists rest, trace st = (prefix ++ rest)%list.

(** The network requests made, in order. *)
Definition fetches (tr : list Event) : list string :=
  omap (fun e => match e with Fetch u => Some u | _ => None end) tr.

(** More source arrays and pages used in examples. *)
Definition float64_two : TypedArray :=
  {| elementType := Float64; elements := [Num 0.25; Num 4]%float |}.
Definition uint16_two : TypedArray :=
  {| elementType := Uint16; elements := [Num 1; Num 2]%float |}.

(** ** The GPU calls and the buffer store of a run *)

(** The calls on the GPU objects and on the canvas: everything but the
    page lookups, the network and the console. *)
Definition is_gpu_call (e : Event) : bool :=
  match e with
  | Fetch _ | ResponseText _ | QuerySelector _ | GetAttribute _
  | ConsoleError _ | ConsoleWarn _ => false
  | _ => true
  end.

Definition gpu_calls (tr : list Event) : list Event := List.filter is_gpu_call tr.

(** A state seen through its GPU calls and its buffers. *)
Record GpuView : Type := {
  calls : list Event;
  store : list BufferState
}.

Definition gpu_view (st : State) : GpuView :=
  {| calls := gpu_calls (trace st); store := gpuBuffers st |}.

Definition nothing_called : GpuView := {| calls := []; store := [] |}.

Definition call (e : Event) (x : GpuView) : GpuView :=
  if is_gpu_call e then {| calls := calls x ++ [e]; store := store x |} else x.

Definition with_store (bs : list BufferState) (x : GpuView) : GpuView :=
  {| calls := calls x; store := bs |}.

(** [wp] on views: from any state seen as [x], the run of [m] ends in
    an outcome and a view that satisfy [Q]. *)
Definition wp_view {A : Type} (m : M A) (w : Browser) (x : GpuView)
    (Q : outcome A -> GpuView -> Prop) : Prop :=
  forall st, gpu_view st = x -> wp m w st (fun o st' => Q o (gpu_view st')).

(** [m] makes no GPU call and leaves the buffers alone. *)
Definition silent {A : Type} (m : M A) : Prop :=
  forall w st, gpu_view (snd (m w st)) = gpu_view st.

(** The trace ends with the events of [recent], latest first. *)
Definition ends_with (recent : list Event) (st : State) : Prop :=
  exists before, trace st = (before ++ rev recent)%list.

(** What the loader of [src/unnamed/part_000] warns of when the page
    has no element with the id. *)
Definition tag_not_found_message (shaderId : string) : list ConsoleArg :=
  [ArgString ("Script tag with id " ++ dquote ++ shaderId ++ dquote ++ " not found!")].

(** The GPU calls of a complete run of the [init] of [src/main.ts]. *)
Definition main_calls (gpu : GPU) (adapter : GPUAdapter) (canvas : Element)
    (context : GPUCanvasContext) (shader_demo : option string) : list Event :=
  let device := adapter_device adapter in
  let shaderModule_demo := {| code := shader_demo |} in
  let pipelineLayoutDesc := {| bindGroupLayouts := [] |} in
  let pipelineDescriptor :=
    {| vertex :=
         {| module := shaderModule_demo;
            entryPoint := "vertex_main";
            buffers := Main.vertexBufferLayout |};
       fragment :=
         {| fragment_module := shaderModule_demo;
            fragment_entryPoint := "fragment_main";
            targets := [ {| target_format := gpu_preferredCanvasFormat gpu |} ] |};
       primitive := {| topology := triangle_list |};
       layout := layout_explicit pipelineLayoutDesc |} in
  [ RequestAdapter;
    RequestDevice adapter;
    CreateShaderModule shaderModule_demo;
    GetContext "webgpu";
    GetPreferredCanvasFormat;
    Configure {| cfg_device := device;
                 cfg_format := gpu_preferredCanvasFormat gpu;
                 cfg_usage := Some GPUTextureUsage_RENDER_ATTACHMENT;
                 cfg_alphaMode := "premultiplied" |};
    CreateBuffer {| size := 96; usage := GPUBufferUsage_VERTEX; mappedAtCreation := true |};
    GetMappedRange 0;
    Unmap 0;
    CreatePipelineLayout pipelineLayoutDesc;
    GetPreferredCanvasFormat;
    CreateRenderPipeline pipelineDescriptor;
    CreateCommandEncoder;
    GetCurrentTexture;
    CreateView;
    BeginRenderPass
      {| colorAttachments :=
           [ {| clearValue := Main.clearColor;
                loadOp := "clear";
                storeOp := "store";
                view := CurrentTextureView context |} ] |};
    SetViewport 0 0 (width canvas) (height canvas) 0 1;
    SetPipeline pipelineDescriptor;
    SetVertexBuffer 0 0;
    Draw 3;
    End;
    Finish;
    Submit [CommandBuffer CommandEncoder] ].

(** The GPU calls of a complete run of the [init] of
    [src/unnamed/part_000]. *)
Definition part000_calls (gpu : GPU) (adapter : GPUAdapter) (context : GPUCanvasContext)
    (shader_demo : option string) : list Event :=
  let device := adapter_device adapter in
  let shaderModule_demo := {| code := shader_demo |} in
  let pipelineDescriptor :=
    {| vertex :=
         {| module := shaderModule_demo;
            entryPoint := "vertex_main";
            buffers := Part000.vertexBuffers |};
       fragment :=
         {| fragment_module := shaderModule_demo;
            fragment_entryPoint := "fragment_main";
            targets := [ {| target_format := gpu_preferredCanvasFormat gpu |} ] |};
       primitive := {| topology := triangle_list |};
       layout := layout_auto |} in
  [ RequestAdapter;
    RequestDevice adapter;
    CreateShaderModule shaderModule_demo;
    GetContext "webgpu";
    GetPreferredCanvasFormat;
    Configure {| cfg_device := device;
                 cfg_format := gpu_preferredCanvasFormat gpu;
                 cfg_usage := None;
                 cfg_alphaMode := "premultiplied" |};
    CreateBuffer {| size := 96;
                    usage := Z.lor GPUBufferUsage_VERTEX GPUBufferUsage_COPY_DST;
                    mappedAtCreation := false |};
    WriteBuffer 0 0 Part000.vertices 0 24;
    GetPreferredCanvasFormat;
    CreateRenderPipeline pipelineDescriptor;
    CreateCommandEncoder;
    GetCurrentTexture;
    CreateView;
    BeginRenderPass
      {| colorAttachments :=
           [ {| clearValue := Part000.clearColor;
                loadOp := "clear";
                storeOp := "store";
                view := CurrentTextureView context |} ] |};
    SetPipeline pipelineDescriptor;
    SetVertexBuffer 0 0;
    Draw 3;
    End;
    Finish;
    Submit [CommandBuffer CommandEncoder] ].

(** A registry with two entries for one id. *)
Definition duplicate_shadersMap : list ShaderEntry :=
  [ {| id := "demo"; src := "shaders/demo.wgsl" |};
    {| id := "demo"; src := "shaders/other.wgsl" |} ].

(** The demo page on a browser that cannot read the body of a
    response, on one whose canvas gives no WebGPU context, with a
    script tag that has no [src], and on a browser that rejects the
    selector [#3d]. *)
Definition browser_text_fails : Browser :=
  {| navigator_gpu := navigator_gpu good_browser;
     document_querySelector := document_querySelector good_browser;
     network := network good_browser;
     faults := fun c =>
       match c with
       | ResponseText _ => Some (TypeError "Failed to fetch")
       | _ => None
       end |}.

Definition browser_null_context : Browser :=
  {| navigator_gpu := navigator_gpu good_browser;
     document_querySelector := fun selector =>
       if String.eqb selector "#webgpu-canvas"
       then Some {| width := 640; height := 480;
                    element_context := None; element_src := None |}
       else document_querySelector good_browser selector;
     network := network good_browser;
     faults := faults good_browser |}.

Definition bare_script : Element :=
  {| width := 0; height := 0; element_context := None; element_src := None |}.

Definition browser_bare_script : Browser :=
  {| navigator_gpu := navigator_gpu good_browser;
     document_querySelector := fun selector =>
       if String.eqb selector "#shader-demo" then Some bare_script
       else document_querySelector good_browser selector;
     network := network good_browser;
     faults := faults good_browser |}.

Definition browser_bad_selector : Browser :=
  {| navigator_gpu := navigator_gpu good_browser;
     document_querySelector := document_querySelector good_browser;
     network := network good_browser;
     faults := fun c =>
       match c with
       | QuerySelector "#3d" => Some (DOMException "SyntaxError")
       | _ => None
       end |}.

(** * Theorems *)

(** ** Rules of the calculus *)

Lemma wp_ret {A : Type} (x : A) w st (Q : outcome A -> State -> Prop) :
  Q (Returned x) st -> wp (ret x) w st Q.
Proof. exact (fun H => H). Qed.

Lemma wp_throw {A : Type} (e : JsError) w st (Q : outcome A -> State -> Prop) :
  Q (Thrown e) st -> wp (throw e) w st Q.
Proof. exact (fun H => H). Qed.

Lemma wp_bind {A B : Type} (m : M A) (k : A -> M B) w st Q :
  wp m w st (fun o st' =>
               match o with
               | Returned x => wp (k x) w st' Q
               | Thrown e => Q (Thrown e) st'
               end) ->
  wp (bind m k) w st Q.
Proof.
  unfold wp, bind. destruct (m w st) as [[x|e] st']; cbn; trivial.
Qed.

Lemma wp_ask {B : Type} (k : Browser -> M B) w st Q :
  wp (k w) w st Q -> wp (bind ask k) w st Q.
Proof. exact (fun H => H). Qed.

(** A call into the platform: either it throws, and the run ends
    there, or the run goes on. *)
Lemma wp_command {B : Type} (c : Event) (k : unit -> M B) w st Q :
  (forall e, faults w c = Some e -> Q (Thrown e) (record_event c st)) ->
  (faults w c = None -> wp (k tt) w (record_event c st) Q) ->
  wp (bind (api c) k) w st Q.
Proof.
  intros Hthrow Hok. unfold wp, bind, api in *.
  destruct (faults w c) as [e|]; cbn; auto.
Qed.

Lemma wp_last_command (c : Event) w st (Q : outcome unit -> State -> Prop) :
  (forall e, faults w c = Some e -> Q (Thrown e) (record_event c st)) ->
  (faults w c = None -> Q (Returned tt) (record_event c st)) ->
  wp (api c) w st Q.
Proof.
  intros Hthrow Hok. unfold wp, api in *.
  destruct (faults w c) as [e|]; cbn; auto.
Qed.

Lemma wp_console_error {B : Type} (args : list ConsoleArg) (k : unit -> M B) w st Q :
  wp (k tt) w (record_event (ConsoleError args) st) Q ->
  wp (bind (console_error args) k) w st Q.
Proof. exact (fun H => H). Qed.

Lemma wp_deref {A B : Type} (o : option A) (p : string) (k : A -> M B) w st Q :
  (o = None ->
   Q (Thrown (TypeError ("Cannot read properties of null (reading '" ++ p ++ "')"))) st) ->
  (forall x, o = Some x -> wp (k x) w st Q) ->
  wp (bind (deref o p) k) w st Q.
Proof.
  intros Hnull Hsome. destruct o as [x|]; [apply (Hsome x) | apply Hnull]; reflexivity.
Qed.

Lemma wp_assoc {A B C : Type} (m : M A) (f : A -> M B) (k : B -> M C) w st Q :
  wp (bind m (fun x => bind (f x) k)) w st Q -> wp (bind (bind m f) k) w st Q.
Proof.
  unfold wp, bind. destruct (m w st) as [[x|e] st']; trivial.
Qed.

Lemma wp_bind_ret {A B : Type} (v : A) (k : A -> M B) w st Q :
  wp (k v) w st Q -> wp (bind (ret v) k) w st Q.
Proof. exact (fun H => H). Qed.

Lemma wp_bind_throw {A B : Type} (e : JsError) (k : A -> M B) w st Q :
  Q (Thrown e) st -> wp (bind (throw e) k) w st Q.
Proof. exact (fun H => H). Qed.

(** [try]/[catch]: what the body throws goes to the handler. *)
Lemma wp_try_catch {A : Type} (body : M A) (handler : JsError -> M A) w st Q :
  wp body w st (fun o st' =>
                  match o with
                  | Returned x => Q (Returned x) st'
                  | Thrown e => wp (handler e) w st' Q
                  end) ->
  wp (try_catch body handler) w st Q.
Proof.
  unfold wp, try_catch. destruct (body w st) as [[x|e] st']; cbn; trivial.
Qed.

Lemma wp_bind_eq {A B : Type} (m : M A) (k : A -> M B) (v : A) w st st' Q :
  m w st = (Returned v, st') -> wp (k v) w st' Q -> wp (bind m k) w st Q.
Proof. unfold wp, bind. intros ->. trivial. Qed.

(** ** Reading a trace that grows *)

(** Normal form of the trace of a state built by the run. *)
Ltac trace_nf :=
  cbn [fst snd trace record_event set_buffers add_events initial_state];
  rewrite <- ?app_assoc; cbn [app].

Lemma wp_deref_some {A B : Type} (v : A) (p : string) (k : A -> M B) w st Q :
  wp (k v) w st Q -> wp (bind (deref (Some v) p) k) w st Q.
Proof. exact (fun H => H). Qed.

Lemma wp_deref_none {A B : Type} (p : string) (k : A -> M B) w st Q :
  Q (Thrown (TypeError ("Cannot read properties of null (reading '" ++ p ++ "')"))) st ->
  wp (bind (deref None p) k) w st Q.
Proof. exact (fun H => H). Qed.

(** A call that the hypotheses say the platform accepts cannot have
    thrown. *)
Ltac no_fault :=
  match goal with
  | H : faults ?w ?c = Some _, H' : faults ?w ?c = None |- _ => congruence
  | H : faults ?w _ = Some _, H' : forall _, faults ?w _ = None |- _ =>
      rewrite H' in H; discriminate H
  end.

Lemma starts_with_record prefix e st :
  starts_with prefix st -> starts_with prefix (record_event e st).
Proof.
  intros [rest H]. exists (rest ++ [e])%list. cbn. rewrite H, app_assoc. reflexivity.
Qed.

Lemma starts_with_set_buffers prefix bs st :
  starts_with prefix st -> starts_with prefix (set_buffers bs st).
Proof. exact (fun H => H). Qed.

Lemma starts_with_add_events prefix evs st :
  starts_with prefix st -> starts_with prefix (add_events evs st).
Proof.
  intros [rest H]. exists (rest ++ evs)%list. cbn. rewrite H, app_assoc. reflexivity.
Qed.

Ltac solve_starts_with :=
  repeat first [ solve [exists []; reflexivity]
               | apply starts_with_record
               | apply starts_with_set_buffers
               | apply starts_with_add_events ].

Lemma elem_of_pipelines d tr : CreateRenderPipeline d ∈ tr <-> d ∈ pipelines tr.
Proof.
  unfold pipelines. rewrite list_elem_of_omap. split.
  - intros H. exists (CreateRenderPipeline d). split; [exact H | reflexivity].
  - intros (e & He & Heq). destruct e; try discriminate Heq.
    injection Heq as ->. exact He.
Qed.

(** ** The calculus on what is observed *)

Lemma observed_snoc tr e : observed (tr ++ [e]) = see e (observed tr).
Proof.
  unfold observed, pipelines, draws, submissions.
  rewrite !omap_app. destruct e; cbn; rewrite ?app_nil_r; reflexivity.
Qed.

Lemma observed_record e st :
  observed (trace (record_event e st)) = see e (observed (trace st)).
Proof. apply observed_snoc. Qed.

Lemma observed_loader_events evs st :
  forallb is_loader_event evs = true ->
  observed (trace (add_events evs st)) = observed (trace st).
Proof.
  intros Hevs. cbn [trace add_events].
  induction evs as [|e evs IH] using rev_ind; [rewrite app_nil_r; reflexivity|].
  rewrite forallb_app in Hevs. apply andb_prop in Hevs as [Hevs He].
  rewrite app_assoc, observed_snoc, IH by exact Hevs.
  cbn in He. destruct e; try discriminate He; reflexivity.
Qed.

Lemma wpo_run {A : Type} (m : M A) w (Q : outcome A -> Observed -> Prop) :
  wp_obs m w nothing_seen Q ->
  Q (fst (run m w)) (observed (trace (snd (run m w)))).
Proof. intros H. exact (H initial_state eq_refl). Qed.

Lemma wpo_ret {A : Type} (v : A) w x (Q : outcome A -> Observed -> Prop) :
  Q (Returned v) x -> wp_obs (ret v) w x Q.
Proof. intros H st <-. exact H. Qed.

Lemma wpo_throw {A : Type} (e : JsError) w x (Q : outcome A -> Observed -> Prop) :
  Q (Thrown e) x -> wp_obs (throw e) w x Q.
Proof. intros H st <-. exact H. Qed.

Lemma wpo_assoc {A B C : Type} (m : M A) (f : A -> M B) (k : B -> M C) w x Q :
  wp_obs (bind m (fun v => bind (f v) k)) w x Q -> wp_obs (bind (bind m f) k) w x Q.
Proof. intros H st Hst. apply wp_assoc, H, Hst. Qed.

Lemma wpo_bind_ret {A B : Type} (v : A) (k : A -> M B) w x Q :
  wp_obs (k v) w x Q -> wp_obs (bind (ret v) k) w x Q.
Proof. exact (fun H => H). Qed.

Lemma wpo_bind_throw {A B : Type} (e : JsError) (k : A -> M B) w x Q :
  Q (Thrown e) x -> wp_obs (bind (throw e) k) w x Q.
Proof. intros H st <-. exact H. Qed.

Lemma wpo_ask {B : Type} (k : Browser -> M B) w x Q :
  wp_obs (k w) w x Q -> wp_obs (bind ask k) w x Q.
Proof. exact (fun H => H). Qed.

Lemma wpo_command {B : Type} (c : Event) (k : unit -> M B) w x Q :
  (forall e, faults w c = Some e -> Q (Thrown e) (see c x)) ->
  (faults w c = None -> wp_obs (k tt) w (see c x) Q) ->
  wp_obs (bind (api c) k) w x Q.
Proof.
  intros Hthrow Hk st <-. apply wp_command.
  - intros e He. rewrite observed_record. exact (Hthrow e He).
  - intros Hok. apply (Hk Hok). apply observed_record.
Qed.

Lemma wpo_last_command (c : Event) w x (Q : outcome unit -> Observed -> Prop) :
  (forall e, faults w c = Some e -> Q (Thrown e) (see c x)) ->
  (faults w c = None -> Q (Returned tt) (see c x)) ->
  wp_obs (api c) w x Q.
Proof.
  intros Hthrow Hk st <-. apply wp_last_command.
  - intros e He. rewrite observed_record. exact (Hthrow e He).
  - intros Hok. rewrite observed_record. exact (Hk Hok).
Qed.

Lemma wpo_deref {A B : Type} (o : option A) (p : string) (k : A -> M B) w x Q :
  (o = None ->
   Q (Thrown (TypeError ("Cannot read properties of null (reading '" ++ p ++ "')"))) x) ->
  (forall v, o = Some v -> wp_obs (k v) w x Q) ->
  wp_obs (bind (deref o p) k) w x Q.
Proof.
  intros Hnull Hsome st Hst. apply wp_deref.
  - intros Ho. rewrite Hst. exact (Hnull Ho).
  - intros v Ho. exact (Hsome v Ho st Hst).
Qed.

(** A part of the program that makes no observed call: the run either
    ends in it or goes on with what it returns. *)
Lemma wpo_quiet {A B : Type} (m : M A) (k : A -> M B) w x Q :
  quiet m ->
  (forall e, Q (Thrown e) x) ->
  (forall v, wp_obs (k v) w x Q) ->
  wp_obs (bind m k) w x Q.
Proof.
  intros Hquiet Hthrow Hk st Hst. apply wp_bind. unfold wp.
  specialize (Hquiet w st). destruct (m w st) as [[v|e] st']; cbn in *.
  - apply Hk. congruence.
  - rewrite Hquiet, Hst. apply Hthrow.
Qed.

Lemma wpo_try_catch {A : Type} (body : M A) (handler : JsError -> M A) w x Q :
  wp_obs body w x (fun o x' =>
                     match o with
                     | Returned v => Q (Returned v) x'
                     | Thrown e => wp_obs (handler e) w x' Q
                     end) ->
  wp_obs (try_catch body handler) w x Q.
Proof.
  intros Hbody st Hst. apply wp_try_catch. specialize (Hbody st Hst).
  unfold wp in *. destruct (body w st) as [[v|e] st']; cbn in *; [exact Hbody|].
  exact (Hbody st' eq_refl).
Qed.

Lemma quiet_console_error args : quiet (console_error args).
Proof. intros w st. apply observed_record. Qed.

Lemma quiet_console_warn args : quiet (console_warn args).
Proof. intros w st. apply observed_record. Qed.

Lemma quiet_alloc_buffer d : quiet (alloc_buffer d).
Proof. intros w st. reflexivity. Qed.

Lemma quiet_update_buffer f i : quiet (update_buffer f i).
Proof. intros w st. reflexivity. Qed.

(** One step of a run, on what is observed. *)
Ltac wpo_step :=
  lazymatch goal with
  | |- wp_obs (bind (bind _ _) _) _ _ _ => apply wpo_assoc
  | |- wp_obs (bind (api _) _) _ _ _ => apply wpo_command; [intros ? ? | intros ?]
  | |- wp_obs (bind (ret _) _) _ _ _ => apply wpo_bind_ret
  | |- wp_obs (bind ask _) _ _ _ => apply wpo_ask
  | |- wp_obs (bind (deref _ _) _) _ _ _ => apply wpo_deref; [intros ? | intros ? ?]
  | |- wp_obs (bind (throw _) _) _ _ _ => apply wpo_bind_throw
  | |- wp_obs (bind (console_error _) _) _ _ _ =>
      apply wpo_quiet; [apply quiet_console_error | intros ? | intros ?]
  | |- wp_obs (bind (console_warn _) _) _ _ _ =>
      apply wpo_quiet; [apply quiet_console_warn | intros ? | intros ?]
  | |- wp_obs (bind (alloc_buffer _) _) _ _ _ =>
      apply wpo_quiet; [apply quiet_alloc_buffer | intros ? | intros ?]
  | |- wp_obs (bind (update_buffer _ _) _) _ _ _ =>
      apply wpo_quiet; [apply quiet_update_buffer | intros ? | intros ?]
  | |- wp_obs (bind (match ?v with _ => _ end) _) _ _ _ => destruct v eqn:?
  | |- wp_obs (match ?v with _ => _ end) _ _ _ => destruct v eqn:?
  | |- wp_obs (api _) _ _ _ => apply wpo_last_command; [intros ? ? | intros ?]
  | |- wp_obs (throw _) _ _ _ => apply wpo_throw
  | |- wp_obs (ret _) _ _ _ => apply wpo_ret
  end;
  cbv beta iota;
  cbn [see seen_pipelines seen_draws seen_submissions nothing_seen app].

(** ** [createGPUBuffer] *)

Lemma byteLength_Float32 (buffer : TypedArray) :
  elementType buffer = Float32 -> byteLength buffer = array_length buffer * 4.
Proof. unfold byteLength. intros ->. reflexivity. Qed.

(** Written through a view of its own element type, a source array
    always fits. *)
Lemma set_error_same_type (buffer : TypedArray) :
  set_error (elementType buffer) (byteLength buffer) buffer = None.
Proof.
  unfold set_error, byteLength.
  assert (HB : BYTES_PER_ELEMENT (elementType buffer) <> 0)
    by (destruct (elementType buffer); discriminate).
  rewrite Z.mod_mul, Z.div_mul by exact HB. cbn.
  rewrite Z.ltb_irrefl. destruct (contentType (elementType buffer)); reflexivity.
Qed.

(** Every run of [createGPUBuffer], spelled out: the buffer is created,
    its mapped range is obtained and written through the view, an error
    is logged for an element type without a branch, and the buffer is
    unmapped; the run stops at the first of these that throws. *)
Lemma createGPUBuffer_run (device : GPUDevice) (buffer : TypedArray) (usage : Z)
    (w : Browser) (st : State) :
  let d := {| size := byteLength buffer; usage := usage; mappedAtCreation := true |} in
  let i := length (gpuBuffers st) in
  let t := view_type_for (elementType buffer) in
  let gpuBuffer := {| buffer_id := i; buffer_size := byteLength buffer; buffer_usage := usage |} in
  let st1 :=
    set_buffers (gpuBuffers st ++ [{| mapState := mapped; data := Zeroed |}])
                (record_event (CreateBuffer d) st) in
  let st2 := record_event (GetMappedRange i) st1 in
  let st3 := set_buffers (alter (set_data (Stored t (elements buffer))) i (gpuBuffers st2)) st2 in
  let st4 :=
    if supported (elementType buffer) then st3
    else record_event (ConsoleError unhandled_message) st3 in
  let st5 := record_event (Unmap i) st4 in
  Main.createGPUBuffer device buffer usage w st =
    match faults w (CreateBuffer d) with
    | Some e => (Thrown e, record_event (CreateBuffer d) st)
    | None =>
        match faults w (GetMappedRange i) with
        | Some e => (Thrown e, st2)
        | None =>
            match set_error t (byteLength buffer) buffer with
            | Some e => (Thrown e, st2)
            | None =>
                match faults w (Unmap i) with
                | Some e => (Thrown e, st5)
                | None =>
                    (Returned gpuBuffer,
                     set_buffers (alter (set_mapState unmapped) i (gpuBuffers st5)) st5)
                end
            end
        end
    end.
Proof.
  cbv zeta. unfold Main.createGPUBuffer, createBuffer, alloc_buffer, bind at 1 2, api.
  destruct (faults w (CreateBuffer _)) as [e|]; [reflexivity|].
  unfold view_type_for, instanceof.
  destruct (elementType buffer) eqn:Ht; cbn [supported ElementType_eqb];
    unfold getMappedRange, new_TypedArray, typedArray_set, unmap, update_buffer,
      console_error, bind, api, ret, throw, set_error;
    cbn [buffer_id buffer_size gpuBuffers set_buffers record_event ab_byteLength
         ab_buffer view_type view_buffer view_length];
    (destruct (faults w (GetMappedRange _)) as [e|]; [reflexivity|]);
    rewrite ?Ht;
    (destruct (_ mod _ =? 0); [|reflexivity]);
    (destruct (_ <? _); [reflexivity|]);
    (destruct (negb _); [reflexivity|]);
    cbn [record_event gpuBuffers trace set_buffers];
    (destruct (faults w (Unmap _)) as [e|]; reflexivity).
Qed.

(** C5. [createGPUBuffer] asks the device for a buffer of exactly
    [buffer.byteLength] bytes, mapped at creation, whatever the source
    array is, and the buffer it returns has that size; for a
    [Float32Array] of [n] elements that is [n * 4].  For a source of an
    element type that has a branch ([Float32Array] among them), when
    the platform accepts the three calls, the buffer returned holds the
    source elements and is unmapped, and the calls made are
    [createBuffer], [getMappedRange] and [unmap], in this order. *)
Theorem createGPUBuffer_size (device : GPUDevice) (buffer : TypedArray) (usage : Z)
    (w : Browser) (st : State) :
  let d := {| size := byteLength buffer; usage := usage; mappedAtCreation := true |} in
  let i := length (gpuBuffers st) in
  (exists evs,
      trace (snd (Main.createGPUBuffer device buffer usage w st))
        = (trace st ++ CreateBuffer d :: evs)%list)
  /\ (forall gpuBuffer,
        fst (Main.createGPUBuffer device buffer usage w st) = Returned gpuBuffer ->
        buffer_size gpuBuffer = byteLength buffer)
  /\ (elementType buffer = Float32 -> byteLength buffer = array_length buffer * 4)
  /\ (supported (elementType buffer) = true ->
      faults w (CreateBuffer d) = None ->
      faults w (GetMappedRange i) = None ->
      faults w (Unmap i) = None ->
      Main.createGPUBuffer device buffer usage w st
        = (Returned {| buffer_id := i;
                       buffer_size := byteLength buffer;
                       buffer_usage := usage |},
           {| trace := trace st ++ [CreateBuffer d; GetMappedRange i; Unmap i];
              gpuBuffers :=
                gpuBuffers st ++
                  [{| mapState := unmapped;
                      data := Stored (elementType buffer) (elements buffer) |}] |})).
Proof.
  cbv zeta. rewrite createGPUBuffer_run. cbv zeta. repeat split.
  - destruct (faults w (CreateBuffer _)); [exists []; reflexivity|].
    destruct (faults w (GetMappedRange _)); [eexists; trace_nf; reflexivity|].
    destruct (set_error _ _ _); [eexists; trace_nf; reflexivity|].
    destruct (supported _), (faults w (Unmap _)); eexists; trace_nf; reflexivity.
  - intros gpuBuffer.
    destruct (faults w (CreateBuffer _)); [discriminate|].
    destruct (faults w (GetMappedRange _)); [discriminate|].
    destruct (set_error _ _ _); [discriminate|].
    destruct (faults w (Unmap _)); [discriminate|].
    cbn. intros [= <-]. reflexivity.
  - apply byteLength_Float32.
  - intros Hsup Hcreate Hrange Hunmap. rewrite Hcreate, Hrange.
    unfold view_type_for. rewrite Hsup, set_error_same_type, Hunmap. f_equal.
    unfold set_buffers, record_event. cbn [trace gpuBuffers]. f_equal.
    + rewrite <- !app_assoc. reflexivity.
    + rewrite list_alter_alter_eq.
      rewrite alter_app_r_alt by lia. rewrite Nat.sub_diag. reflexivity.
Qed.

(** C5 on the demo vertices: 24 floats, 96 bytes. *)
Lemma createGPUBuffer_size_witness :
  byteLength Main.vertices = 24 * 4
  /\ Main.createGPUBuffer the_device Main.vertices GPUBufferUsage_VERTEX
       good_browser initial_state
     = (Returned {| buffer_id := 0; buffer_size := 96; buffer_usage := 32 |},
        {| trace := [CreateBuffer {| size := 96; usage := 32; mappedAtCreation := true |};
                     GetMappedRange 0; Unmap 0];
           gpuBuffers :=
             [{| mapState := unmapped;
                 data := Stored Float32 (elements Main.vertices) |}] |}).
Proof.
  split.
  - apply (proj1 (proj2 (proj2 (createGPUBuffer_size the_device Main.vertices
                                  GPUBufferUsage_VERTEX good_browser initial_state)))).
    reflexivity.
  - apply (proj2 (proj2 (proj2 (createGPUBuffer_size the_device Main.vertices
                                  GPUBufferUsage_VERTEX good_browser initial_state))));
      reflexivity.
Defined.

(** C10. Whenever [createGPUBuffer] returns a buffer, it has unmapped
    that buffer exactly once, as the last call it made, and the buffer
    is in the unmapped state; this holds for every element type, the
    ones without a branch of their own included. *)
Theorem createGPUBuffer_unmaps_once (device : GPUDevice) (buffer : TypedArray) (usage : Z)
    (w : Browser) (st st' : State) (gpuBuffer : GPUBuffer) :
  Main.createGPUBuffer device buffer usage w st = (Returned gpuBuffer, st') ->
  exists evs,
    trace st' = (trace st ++ evs)%list
    /\ unmaps evs = [buffer_id gpuBuffer]
    /\ last evs = Some (Unmap (buffer_id gpuBuffer))
    /\ mapState <$> gpuBuffers st' !! buffer_id gpuBuffer = Some unmapped.
Proof.
  rewrite createGPUBuffer_run. cbv zeta.
  destruct (faults w (CreateBuffer _)); [discriminate|].
  destruct (faults w (GetMappedRange _)); [discriminate|].
  destruct (set_error _ _ _); [discriminate|].
  destruct (faults w (Unmap _)); [discriminate|].
  intros [= <- <-]. cbn [buffer_id].
  exists ([CreateBuffer {| size := byteLength buffer; usage := usage;
                           mappedAtCreation := true |};
           GetMappedRange (length (gpuBuffers st))]
          ++ (if supported (elementType buffer) then []
              else [ConsoleError unhandled_message])
          ++ [Unmap (length (gpuBuffers st))])%list.
  repeat split.
  - destruct (supported _); trace_nf; reflexivity.
  - destruct (supported _); reflexivity.
  - destruct (supported _); reflexivity.
  - destruct (supported _); cbn [gpuBuffers set_buffers record_event];
      rewrite !list_lookup_alter_eq, list_lookup_middle by reflexivity; reflexivity.
Qed.

(** C10 on the demo vertices. *)
Lemma createGPUBuffer_unmaps_once_witness :
  exists evs,
    trace (snd (Main.createGPUBuffer the_device Main.vertices GPUBufferUsage_VERTEX
                  good_browser initial_state)) = ([] ++ evs)%list
    /\ unmaps evs = [0%nat]
    /\ last evs = Some (Unmap 0)
    /\ mapState <$> gpuBuffers
                      (snd (Main.createGPUBuffer the_device Main.vertices
                              GPUBufferUsage_VERTEX good_browser initial_state))
                    !! 0%nat = Some unmapped.
Proof.
  apply (createGPUBuffer_unmaps_once the_device Main.vertices GPUBufferUsage_VERTEX
           good_browser initial_state _
           {| buffer_id := 0; buffer_size := 96; buffer_usage := 32 |}).
  reflexivity.
Defined.

(** The branch for the other element types does return when the source
    has 4-byte Number elements: an [Int32Array]. *)
Example createGPUBuffer_Int32Array :
  Main.createGPUBuffer the_device int32_two GPUBufferUsage_VERTEX good_browser initial_state
    = (Returned {| buffer_id := 0; buffer_size := 8; buffer_usage := 32 |},
       {| trace := [CreateBuffer {| size := 8; usage := 32; mappedAtCreation := true |};
                    GetMappedRange 0; ConsoleError unhandled_message; Unmap 0];
          gpuBuffers :=
            [{| mapState := unmapped; data := Stored Float32 (elements int32_two) |}] |}).
Proof. reflexivity. Qed.

(** In that branch the float32 view has a quarter as many elements as
    the range has bytes: a source with narrower elements does not fit. *)
Lemma set_error_narrow_elements (buffer : TypedArray) :
  BYTES_PER_ELEMENT (elementType buffer) < 4 ->
  elements buffer <> [] ->
  byteLength buffer mod 4 = 0 ->
  set_error Float32 (byteLength buffer) buffer = Some (RangeError "offset is out of bounds").
Proof.
  intros Hnarrow Hne Hmod. unfold set_error. cbn [BYTES_PER_ELEMENT].
  rewrite Hmod. cbn.
  assert (Hlen : 0 < array_length buffer).
  { unfold array_length. destruct (elements buffer); [congruence | cbn; lia]. }
  assert (Hlt : byteLength buffer / 4 < array_length buffer).
  { apply Z.div_lt_upper_bound; [lia|]. unfold byteLength. nia. }
  apply Z.ltb_lt in Hlt. rewrite Hlt. reflexivity.
Qed.

(** C6 fails on the code.  For an [Int8Array] of four elements the
    buffer has 4 bytes, the float32 view over it has one element, and
    [set] of the four source elements throws a [RangeError].  So,
    whatever the browser does, [createGPUBuffer] throws on this input:
    it returns no buffer, logs nothing to the console and does not
    unmap. *)
Theorem createGPUBuffer_Int8Array_throws (device : GPUDevice) (usage : Z)
    (w : Browser) (st : State) :
  exists e st',
    Main.createGPUBuffer device int8_four usage w st = (Thrown e, st')
    /\ console_errors (trace st') = console_errors (trace st)
    /\ unmaps (trace st') = unmaps (trace st).
Proof.
  rewrite createGPUBuffer_run. cbv zeta.
  change (set_error (view_type_for (elementType int8_four)) (byteLength int8_four) int8_four)
    with (Some (RangeError "offset is out of bounds")).
  unfold console_errors, unmaps.
  destruct (faults w (CreateBuffer _)) as [e|]; [|destruct (faults w (GetMappedRange _)) as [e|]].
  all: eexists; eexists; (split; [reflexivity|]); trace_nf; rewrite !omap_app;
    cbn; rewrite !app_nil_r; split; reflexivity.
Qed.

(** On a browser that accepts every call, the error is the
    [RangeError] of [set], and the buffer is left mapped and empty. *)
Example createGPUBuffer_Int8Array_good_browser :
  Main.createGPUBuffer the_device int8_four GPUBufferUsage_VERTEX good_browser initial_state
    = (Thrown (RangeError "offset is out of bounds"),
       {| trace := [CreateBuffer {| size := 4; usage := 32; mappedAtCreation := true |};
                    GetMappedRange 0];
          gpuBuffers := [{| mapState := mapped; data := Zeroed |}] |}).
Proof. reflexivity. Qed.

(** The rule for a call of [createGPUBuffer] on a source array of an
    element type that has a branch. *)
Lemma wp_createGPUBuffer {B : Type} (device : GPUDevice) (buffer : TypedArray) (usage : Z)
    (k : GPUBuffer -> M B) (w : Browser) (st : State) Q :
  let d := {| size := byteLength buffer; usage := usage; mappedAtCreation := true |} in
  let i := length (gpuBuffers st) in
  let gpuBuffer := {| buffer_id := i; buffer_size := byteLength buffer; buffer_usage := usage |} in
  let st1 :=
    set_buffers (gpuBuffers st ++ [{| mapState := mapped; data := Zeroed |}])
                (record_event (CreateBuffer d) st) in
  let st2 := record_event (GetMappedRange i) st1 in
  let st3 :=
    set_buffers (alter (set_data (Stored (elementType buffer) (elements buffer))) i
                       (gpuBuffers st2)) st2 in
  let st4 := record_event (Unmap i) st3 in
  supported (elementType buffer) = true ->
  (forall e, faults w (CreateBuffer d) = Some e ->
             Q (Thrown e) (record_event (CreateBuffer d) st)) ->
  (forall e, faults w (GetMappedRange i) = Some e -> Q (Thrown e) st2) ->
  (forall e, faults w (Unmap i) = Some e -> Q (Thrown e) st4) ->
  (faults w (CreateBuffer d) = None -> faults w (GetMappedRange i) = None ->
   faults w (Unmap i) = None ->
   wp (k gpuBuffer) w (set_buffers (alter (set_mapState unmapped) i (gpuBuffers st4)) st4) Q) ->
  wp (bind (Main.createGPUBuffer device buffer usage) k) w st Q.
Proof.
  cbv zeta. intros Hsup Hcreate Hrange Hunmap Hk.
  unfold wp, bind. rewrite createGPUBuffer_run. cbv zeta.
  unfold view_type_for. rewrite Hsup, set_error_same_type.
  destruct (faults w (CreateBuffer _)) as [e|]; [exact (Hcreate e eq_refl)|].
  destruct (faults w (GetMappedRange _)) as [e|]; [exact (Hrange e eq_refl)|].
  destruct (faults w (Unmap _)) as [e|]; [exact (Hunmap e eq_refl)|].
  apply Hk; reflexivity.
Qed.

(** One step of a run of [init]. *)
Ltac wp_step :=
  lazymatch goal with
  | |- wp (bind (bind _ _) _) _ _ _ => apply wp_assoc
  | |- wp (bind (api _) _) _ _ _ => apply wp_command; [intros ? ? | intros ?]
  | |- wp (bind (ret _) _) _ _ _ => apply wp_bind_ret
  | |- wp (bind ask _) _ _ _ => apply wp_ask
  | |- wp (bind (console_error _) _) _ _ _ => apply wp_console_error
  | |- wp (bind (deref _ _) _) _ _ _ => apply wp_deref; [intros ? | intros ? ?]
  | |- wp (bind (throw _) _) _ _ _ => apply wp_bind_throw
  | |- wp (bind (Main.createGPUBuffer _ _ _) _) _ _ _ =>
      apply wp_createGPUBuffer;
      [reflexivity | intros ? ? | intros ? ? | intros ? ? | intros ? ? ?]
  | |- wp (bind (match ?x with _ => _ end) _) _ _ _ => destruct x eqn:?
  | |- wp (match ?x with _ => _ end) _ _ _ => destruct x eqn:?
  | |- wp (api _) _ _ _ => apply wp_last_command; [intros ? ? | intros ?]
  | |- wp (throw _) _ _ _ => apply wp_throw
  | |- wp (ret _) _ _ _ => apply wp_ret
  end; cbv beta iota.

Ltac unfold_platform :=
  unfold requestAdapter, requestDevice, getPreferredCanvasFormat, fetch, text,
    querySelector, getAttribute, getContext, configure, getCurrentTexture_createView,
    createShaderModule, createPipelineLayout, createRenderPipeline,
    createCommandEncoder, beginRenderPass, setViewport, setPipeline, setVertexBuffer,
    draw, end_pass, finish, submit, writeBuffer, createBuffer.

Lemma quiet_createGPUBuffer device buffer usage :
  quiet (Main.createGPUBuffer device buffer usage).
Proof.
  intros w st. rewrite createGPUBuffer_run. cbv zeta.
  repeat match goal with
         | |- context [match ?v with _ => _ end] => destruct v
         | |- context [if ?v then _ else _] => destruct v
         end;
    repeat (progress cbn [snd trace set_buffers see] || rewrite observed_record);
    reflexivity.
Qed.

(** The leaves of a run: what has been observed is as [init_observation]
    says. *)
Ltac solve_observation :=
  repeat match goal with
         | |- _ /\ _ => split
         | |- Thrown _ = Returned _ -> _ => discriminate
         | |- _ = Returned _ -> _ => intros _
         | |- [] = [] \/ _ => left; reflexivity
         | |- _ \/ _ => right
         | |- exists d, [?x] = [d] /\ _ => exists x
         | |- _ = _ => reflexivity
         end.

Section MainTheorems.

Variable shadersMap : list ShaderEntry.

Abbreviation init := (Main.init shadersMap).
Abbreviation fetchShaderFile := (Main.fetchShaderFile shadersMap).

(** *** The registry lookup *)

Lemma find_src_absent (shaderId : string) (entries : list ShaderEntry) :
  shaderId ∉ map id entries -> Main.find_src entries shaderId = None.
Proof.
  induction entries as [|e rest IH]; intros Hnot; [reflexivity|].
  simpl in *. destruct (String.eqb_spec (id e) shaderId) as [Heq|Hne].
  - exfalso. apply Hnot. rewrite Heq. left.
  - apply IH. intros Hin. apply Hnot. right. exact Hin.
Qed.

Lemma find_src_present (shaderId : string) (entries : list ShaderEntry) :
  shaderId ∈ map id entries <-> is_Some (Main.find_src entries shaderId).
Proof.
  induction entries as [|e rest IH]; simpl.
  - split; [intros H; inversion H | intros [? H]; discriminate].
  - destruct (String.eqb_spec (id e) shaderId) as [Heq|Hne].
    + split; [eauto | intros _; rewrite Heq; left].
    + rewrite <- IH. split.
      * intros H. inversion H; subst; [congruence | assumption].
      * intros H. right. exact H.
Qed.

(** With unique ids, the lookup finds the entry itself. *)
Lemma find_src_entry (e : ShaderEntry) (entries : list ShaderEntry) :
  NoDup (map id entries) -> e ∈ entries ->
  Main.find_src entries (id e) = Some (src e).
Proof.
  induction entries as [|e' rest IH]; intros Hnd Hin; [inversion Hin|].
  simpl in *. apply NoDup_cons in Hnd as [Hfresh Hnd].
  destruct (String.eqb_spec (id e') (id e)) as [Heq|Hne].
  - inversion Hin; subst; [reflexivity|].
    exfalso. apply Hfresh. rewrite Heq. apply list_elem_of_fmap_2. assumption.
  - inversion Hin; subst; [congruence | auto].
Qed.

(** *** C1 *)

(** C1. [init] fails fast.  When [navigator.gpu] is absent it throws
    [Error("WebGPU not supported.")] before any call has been made;
    when [requestAdapter()] resolves to [null] it throws
    [Error("Couldn't request WebGPU adapter.")], and the adapter
    request is the only call made: no device is requested, nothing is
    created. *)
Theorem init_fails_fast (w : Browser) :
  (navigator_gpu w = None ->
   run init w = (Thrown (Error "WebGPU not supported."), initial_state))
  /\
  (forall gpu, navigator_gpu w = Some gpu ->
     faults w RequestAdapter = None -> gpu_adapter gpu = None ->
     run init w = (Thrown (Error "Couldn't request WebGPU adapter."),
                   record_event RequestAdapter initial_state)).
Proof.
  split.
  - intros Hgpu. unfold run, Main.init, bind, ask. rewrite Hgpu. reflexivity.
  - intros gpu Hgpu Hok Hnull.
    unfold run, Main.init, bind, ask, requestAdapter, api, bind. rewrite Hgpu.
    rewrite Hok. simpl. rewrite Hnull. reflexivity.
Qed.

(** *** The shader loader *)

(** Every run of the loader: it returns, having only fetched and
    logged. *)
Lemma fetchShaderFile_run (shaderId : string) (w : Browser) (st : State) :
  exists code evs,
    fetchShaderFile shaderId w st = (Returned code, add_events evs st)
    /\ forallb is_loader_event evs = true.
Proof.
  enough (wp (fetchShaderFile shaderId) w st
             (fun o st' => exists code evs,
                  (o, st') = (Returned code, add_events evs st)
                  /\ forallb is_loader_event evs = true)) as H.
  { unfold wp in H. rewrite <- surjective_pairing in H. exact H. }
  unfold Main.fetchShaderFile, fetch, text.
  destruct (truthy (Main.find_src shadersMap shaderId)) as [path|].
  1: apply wp_try_catch.
  all: repeat wp_step.
  all: do 2 eexists; split;
    [ unfold add_events, record_event; cbn [trace gpuBuffers];
      rewrite <- ?app_assoc; reflexivity
    | reflexivity ].
Qed.

Lemma wp_fetchShaderFile {B : Type} (shaderId : string) (k : option string -> M B) w st Q :
  (forall code evs, forallb is_loader_event evs = true ->
                    wp (k code) w (add_events evs st) Q) ->
  wp (bind (fetchShaderFile shaderId) k) w st Q.
Proof.
  intros Hk. unfold wp, bind.
  destruct (fetchShaderFile_run shaderId w st) as (code & evs & -> & Hevs).
  apply Hk, Hevs.
Qed.

Lemma quiet_fetchShaderFile shaderId : quiet (fetchShaderFile shaderId).
Proof.
  intros w st.
  destruct (fetchShaderFile_run shaderId w st) as (code & evs & -> & Hevs).
  apply observed_loader_events, Hevs.
Qed.

(** *** Every run of [init] *)

Ltac init_step :=
  lazymatch goal with
  | |- wp_obs (bind (Main.fetchShaderFile _ _) _) _ _ _ =>
      apply wpo_quiet; [apply quiet_fetchShaderFile | intros ? | intros ?]
  | |- wp_obs (bind (Main.createGPUBuffer _ _ _) _) _ _ _ =>
      apply wpo_quiet; [apply quiet_createGPUBuffer | intros ? | intros ?]
  | _ => wpo_step
  end.

Lemma init_observed (w : Browser) :
  wp_obs init w nothing_seen
         (init_observation (layout_explicit {| bindGroupLayouts := [] |})).
Proof.
  unfold Main.init. unfold_platform.
  repeat init_step.
  all: unfold init_observation, fixed_vertex_layout;
    cbn [seen_pipelines seen_draws seen_submissions nothing_seen length].
  all: solve_observation.
Qed.

Lemma fetchShaderFile_unregistered (shaderId : string) (w : Browser) (st : State) :
  Main.find_src shadersMap shaderId = None ->
  fetchShaderFile shaderId w st
    = (Returned None, record_event (ConsoleError (not_found_message shaderId)) st).
Proof.
  intros Hnone. unfold Main.fetchShaderFile. rewrite Hnone. reflexivity.
Qed.

(** An entry whose path is the empty string counts as missing too: the
    test is [if (!src)]. *)
Lemma fetchShaderFile_empty_src (shaderId : string) (w : Browser) (st : State) :
  Main.find_src shadersMap shaderId = Some "" ->
  fetchShaderFile shaderId w st
    = (Returned None, record_event (ConsoleError (not_found_message shaderId)) st).
Proof.
  intros Hnone. unfold Main.fetchShaderFile. rewrite Hnone. reflexivity.
Qed.

(** A run of [init] under hypotheses on the page and the platform:
    what they say is used, the branches they exclude are dropped. *)
Ltac wp_auto :=
  repeat (cbv beta iota;
          lazymatch goal with
          | H : ?v = _ |- wp (match ?v with _ => _ end) _ _ _ => rewrite H
          | H : ?v = _ |- wp (bind (match ?v with _ => _ end) _) _ _ _ => rewrite H
          | H : ?v = _ |- wp (bind (deref ?v _) _) _ _ _ => rewrite H
          | |- wp (bind (deref (Some _) _) _) _ _ _ => apply wp_deref_some
          | |- wp (bind (deref None _) _) _ _ _ => apply wp_deref_none
          | H : Main.find_src _ ?i = None
            |- wp (bind (Main.fetchShaderFile _ ?i) _) _ _ _ =>
              eapply wp_bind_eq; [apply fetchShaderFile_unregistered, H|]
          | |- wp (bind (Main.fetchShaderFile _ _) _) _ _ _ =>
              apply wp_fetchShaderFile; intros ? ? ?
          | _ => wp_step
          end;
          try no_fault).

(** The run goes through when the page and the platform cooperate. *)
Lemma init_returns (w : Browser) (gpu : GPU) (adapter : GPUAdapter) (canvas : Element)
    (context : GPUCanvasContext) :
  navigator_gpu w = Some gpu -> gpu_adapter gpu = Some adapter ->
  document_querySelector w "#webgpu-canvas" = Some canvas ->
  element_context canvas = Some context ->
  (forall c, faults w c = None) ->
  fst (run init w) = Returned tt.
Proof.
  intros Hgpu Hadapter Hcanvas Hcontext Hquiet.
  change (wp init w initial_state (fun o _ => o = Returned tt)).
  unfold Main.init. unfold_platform. wp_auto. reflexivity.
Qed.

(** *** C2 *)

(** C2. When the page has no element [#webgpu-canvas] (and the run gets
    as far as looking for it), [init] logs [No canvas found to render
    to!] and goes on: the next statement reads [getContext] of [null],
    which throws a [TypeError].  So the run ends in that [TypeError],
    not in an [Error] of the program's own; the console error is the
    last thing recorded, right after the lookup, and [getContext] is
    never called. *)
Theorem init_missing_canvas (w : Browser) (gpu : GPU) (adapter : GPUAdapter) :
  navigator_gpu w = Some gpu -> gpu_adapter gpu = Some adapter ->
  faults w RequestAdapter = None -> faults w (RequestDevice adapter) = None ->
  (forall d, faults w (CreateShaderModule d) = None) ->
  faults w (QuerySelector "#webgpu-canvas") = None ->
  document_querySelector w "#webgpu-canvas" = None ->
  exists st,
    run init w
      = (Thrown (TypeError "Cannot read properties of null (reading 'getContext')"), st)
    /\ (exists before,
           trace st = (before ++ [QuerySelector "#webgpu-canvas";
                                  ConsoleError [ArgString "No canvas found to render to!"]])%list)
    /\ ~ In (GetContext "webgpu") (trace st).
Proof.
  intros Hgpu Hadapter Hra Hrd Hcsm Hqs Hcanvas.
  enough (wp init w initial_state
             (fun o st =>
                o = Thrown (TypeError "Cannot read properties of null (reading 'getContext')")
                /\ (exists before,
                       trace st = (before ++ [QuerySelector "#webgpu-canvas";
                                              ConsoleError [ArgString "No canvas found to render to!"]])%list)
                /\ ~ In (GetContext "webgpu") (trace st))) as H.
  { unfold wp in H. exists (snd (run init w)). destruct H as (Ho & Htr & Hno).
    repeat split; try assumption. rewrite <- Ho. apply surjective_pairing. }
  unfold Main.init. unfold_platform. wp_auto.
  split; [reflexivity|]. split.
  - eexists. cbn [trace record_event]. rewrite <- app_assoc. reflexivity.
  - cbn [trace record_event add_events initial_state]. rewrite !in_app_iff. cbn.
    match goal with H : forallb _ _ = true |- _ => rewrite forallb_forall in H; rename H into Hevs end.
    intros Hin.
    repeat match goal with
           | H : _ \/ _ |- _ => destruct H as [H|H]
           | H : False |- _ => destruct H
           | H : In _ evs |- _ => apply Hevs in H
           | H : _ = _ |- _ => discriminate H
           end.
Qed.

(** *** C3 and C4 *)

(** C3. For every id that the registry does not hold, [fetchShaderFile]
    logs [Failed to find shader with "id"!] to the console, makes no
    other call (so no fetch) and returns [undefined].  When ["demo"] is
    such an id, [init], on a browser where the adapter and the device
    are obtained, next calls [createShaderModule] with [undefined] as
    the shader code: these are the first four events of the run. *)
Theorem fetchShaderFile_unknown_id (w : Browser) :
  (forall (shaderId : string) (st : State),
      ~ In shaderId (map id shadersMap) ->
      fetchShaderFile shaderId w st
        = (Returned None, record_event (ConsoleError (not_found_message shaderId)) st))
  /\
  (forall (gpu : GPU) (adapter : GPUAdapter),
      ~ In "demo" (map id shadersMap) ->
      navigator_gpu w = Some gpu -> gpu_adapter gpu = Some adapter ->
      faults w RequestAdapter = None -> faults w (RequestDevice adapter) = None ->
      exists rest,
        trace (snd (run init w))
          = ([RequestAdapter; RequestDevice adapter;
              ConsoleError (not_found_message "demo");
              CreateShaderModule {| code := None |}] ++ rest)%list).
Proof.
  split.
  - intros shaderId st Hnot. apply fetchShaderFile_unregistered, find_src_absent.
    rewrite list_elem_of_In. exact Hnot.
  - intros gpu adapter Hnot Hgpu Hadapter Hra Hrd.
    assert (Hnone : Main.find_src shadersMap "demo" = None).
    { apply find_src_absent. rewrite list_elem_of_In. exact Hnot. }
    change (wp init w initial_state
               (fun _ => starts_with [RequestAdapter; RequestDevice adapter;
                                      ConsoleError (not_found_message "demo");
                                      CreateShaderModule {| code := None |}])).
    unfold Main.init. unfold_platform. wp_auto.
    all: solve_starts_with.
Qed.

(** C4. When the registry maps the id to a path ([find_src] is the
    lookup loop: the first entry with that id), the path is not the
    empty string, so that the fetch is made, the fetch resolves to a
    response with [ok] set and reading its text succeeds, then
    [fetchShaderFile] returns exactly that text; the two calls it has
    made are the fetch and the read. *)
Theorem fetchShaderFile_known_id (shaderId path : string) (w : Browser) (st : State) :
  Main.find_src shadersMap shaderId = Some path ->
  path <> "" ->
  faults w (Fetch path) = None ->
  ok (network w path) = true ->
  faults w (ResponseText (url (network w path))) = None ->
  fetchShaderFile shaderId w st
    = (Returned (Some (body (network w path))),
       record_event (ResponseText (url (network w path))) (record_event (Fetch path) st)).
Proof.
  intros Hfound Hpath Hfetch Hok Htext.
  unfold Main.fetchShaderFile. rewrite Hfound. cbn [truthy].
  destruct (String.eqb_spec path "") as [|_]; [contradiction|].
  unfold try_catch, fetch, text, bind, api, ask, ret.
  rewrite Hfetch. cbn. rewrite Hok. cbn. rewrite Htext. reflexivity.
Qed.

(** [fetchShaderFile] never throws: what goes wrong inside [try] is
    caught and logged.  It returns the text or [undefined], and the
    calls it makes are fetches, reads of a response and console errors. *)
Theorem fetchShaderFile_never_throws (shaderId : string) (w : Browser) (st : State) :
  exists code evs,
    fst (fetchShaderFile shaderId w st) = Returned code
    /\ trace (snd (fetchShaderFile shaderId w st)) = (trace st ++ evs)%list
    /\ forallb is_loader_event evs = true.
Proof.
  destruct (fetchShaderFile_run shaderId w st) as (code & evs & Hrun & Hevs).
  exists code, evs. rewrite Hrun. repeat split. exact Hevs.
Qed.

(** A fetch that fails is logged and swallowed: when the request is
    rejected, or answered with a response that is not [ok], the loader
    logs the error and returns [undefined]. *)
Theorem fetchShaderFile_fetch_failure (shaderId path : string) (error : JsError)
    (w : Browser) (st : State) :
  Main.find_src shadersMap shaderId = Some path ->
  path <> "" ->
  faults w (Fetch path) = Some error
  \/ (faults w (Fetch path) = None /\ ok (network w path) = false
      /\ error = Error "Network response was not ok.") ->
  fetchShaderFile shaderId w st
    = (Returned None,
       record_event (ConsoleError (fetch_failed_message shaderId error))
         (record_event (Fetch path) st)).
Proof.
  intros Hfound Hpath Hfail.
  unfold Main.fetchShaderFile. rewrite Hfound. cbn [truthy].
  destruct (String.eqb_spec path "") as [|_]; [contradiction|].
  unfold try_catch, fetch, text, bind, api, ask, ret, throw, console_error.
  destruct Hfail as [Hrejected | (Hfetch & Hok & ->)].
  - rewrite Hrejected. reflexivity.
  - rewrite Hfetch. cbn. rewrite Hok. reflexivity.
Qed.

(** *** C7 and C9 *)

(** C7. Every render-pipeline descriptor that a run of [init] hands to
    [createRenderPipeline] has exactly one vertex buffer layout, with
    exactly two attributes, both [float32x4], at shader locations 0 and
    1 and byte offsets 0 and 16, an array stride of 32, and the
    [triangle-list] topology. *)
Theorem init_pipeline_vertex_layout (w : Browser) (d : GPURenderPipelineDescriptor) :
  In (CreateRenderPipeline d) (trace (snd (run init w))) ->
  buffers (vertex d)
    = [ {| attributes :=
             [ {| shaderLocation := 0; offset := 0; format := float32x4 |};
               {| shaderLocation := 1; offset := 16; format := float32x4 |} ];
           arrayStride := 32;
           stepMode := step_vertex |} ]
  /\ topology (primitive d) = triangle_list.
Proof.
  intros Hin. apply list_elem_of_In, elem_of_pipelines in Hin.
  destruct (wpo_run _ _ _ (init_observed w)) as ([Hnone | (d' & Hone & Hd' & _)] & _).
  - cbn [seen_pipelines observed] in Hnone. rewrite Hnone in Hin. inversion Hin.
  - cbn [seen_pipelines observed] in Hone. rewrite Hone in Hin.
    apply list_elem_of_singleton in Hin as ->. exact Hd'.
Qed.

(** C9. A run of [init] that goes through to the end has issued exactly
    one draw call, for 3 vertices, and exactly one queue submission, of
    exactly one command buffer.  No run, complete or not, issues any
    other draw or submission: the draws seen are none or that one, and
    so are the submissions. *)
Theorem init_draws_once (w : Browser) :
  let tr := trace (snd (run init w)) in
  (draws tr = [] \/ draws tr = [3])
  /\ (submissions tr = [] \/ submissions tr = [[CommandBuffer CommandEncoder]])
  /\ (fst (run init w) = Returned tt ->
      draws tr = [3] /\ submissions tr = [[CommandBuffer CommandEncoder]]).
Proof.
  destruct (wpo_run _ _ _ (init_observed w)) as (_ & Hdraws & Hsub & Hdone).
  cbv zeta. repeat split; try assumption; apply Hdone; assumption.
Qed.

End MainTheorems.

(** ** [src/unnamed/part_000] and C8 *)

Lemma quiet_of_wp_obs {A : Type} (m : M A) :
  (forall w x, wp_obs m w x (fun _ x' => x' = x)) -> quiet m.
Proof. intros H w st. exact (H w _ st eq_refl). Qed.

Lemma quiet_Part000_fetchShaderFile shaderId : quiet (Part000.fetchShaderFile shaderId).
Proof.
  apply quiet_of_wp_obs. intros w x.
  unfold Part000.fetchShaderFile. unfold_platform.
  repeat first [ apply wpo_try_catch | wpo_step ]; reflexivity.
Qed.

Ltac part000_step :=
  lazymatch goal with
  | |- wp_obs (bind (Part000.fetchShaderFile _) _) _ _ _ =>
      apply wpo_quiet; [apply quiet_Part000_fetchShaderFile | intros ? | intros ?]
  | _ => wpo_step
  end.

Lemma part000_init_observed (w : Browser) :
  wp_obs Part000.init w nothing_seen (init_observation layout_auto).
Proof.
  unfold Part000.init. unfold_platform.
  repeat part000_step.
  all: unfold init_observation, fixed_vertex_layout;
    cbn [seen_pipelines seen_draws seen_submissions nothing_seen length].
  all: solve_observation.
Qed.

(** C8 fails on [src/main.ts]: on the demo page its [init] hands
    [createRenderPipeline] a descriptor whose [layout] is the pipeline
    layout made by [createPipelineLayout({ bindGroupLayouts: [] })], not
    ["auto"]. *)
Lemma main_init_layout_not_auto :
  In (CreateRenderPipeline demo_pipelineDescriptor)
     (trace (snd (run (Main.init demo_shadersMap) good_browser)))
  /\ layout demo_pipelineDescriptor = layout_explicit {| bindGroupLayouts := [] |}
  /\ layout demo_pipelineDescriptor <> layout_auto.
Proof.
  split; [|split; [reflexivity | discriminate]].
  vm_compute. do 14 right. left. reflexivity.
Qed.

(** C8, amended.  Every pipeline that the [init] of
    [src/unnamed/part_000] creates has [layout: "auto"]; every pipeline
    that the [init] of [src/main.ts] creates is given, explicitly, a
    pipeline layout with an empty list of bind-group layouts. *)
Theorem init_pipeline_layout (shadersMap : list ShaderEntry) (w : Browser)
    (d : GPURenderPipelineDescriptor) :
  (In (CreateRenderPipeline d) (trace (snd (run Part000.init w))) ->
   layout d = layout_auto)
  /\ (In (CreateRenderPipeline d) (trace (snd (run (Main.init shadersMap) w))) ->
      layout d = layout_explicit {| bindGroupLayouts := [] |}).
Proof.
  split; intros Hin; apply list_elem_of_In, elem_of_pipelines in Hin.
  - destruct (wpo_run _ _ _ (part000_init_observed w))
      as ([Hnone | (d' & Hone & _ & Hd')] & _);
      cbn [seen_pipelines observed] in *.
    + rewrite Hnone in Hin. inversion Hin.
    + rewrite Hone in Hin. apply list_elem_of_singleton in Hin as ->. exact Hd'.
  - destruct (wpo_run _ _ _ (init_observed shadersMap w))
      as ([Hnone | (d' & Hone & _ & Hd')] & _);
      cbn [seen_pipelines observed] in *.
    + rewrite Hnone in Hin. inversion Hin.
    + rewrite Hone in Hin. apply list_elem_of_singleton in Hin as ->. exact Hd'.
Qed.

(** ** The theorems on concrete pages *)

(** C1, on a browser without WebGPU and on one without an adapter. *)
Lemma init_fails_fast_witness :
  run (Main.init demo_shadersMap) browser_without_gpu
    = (Thrown (Error "WebGPU not supported."), initial_state)
  /\ run (Main.init demo_shadersMap) browser_without_adapter
    = (Thrown (Error "Couldn't request WebGPU adapter."),
       record_event RequestAdapter initial_state).
Proof.
  split.
  - apply (proj1 (init_fails_fast demo_shadersMap browser_without_gpu)). reflexivity.
  - apply (proj2 (init_fails_fast demo_shadersMap browser_without_adapter)
             {| gpu_adapter := None; gpu_preferredCanvasFormat := "bgra8unorm" |});
      reflexivity.
Defined.

(** C2, on the page without the canvas. *)
Lemma init_missing_canvas_witness :
  exists st,
    run (Main.init demo_shadersMap) browser_without_canvas
      = (Thrown (TypeError "Cannot read properties of null (reading 'getContext')"), st)
    /\ (exists before,
           trace st = (before ++ [QuerySelector "#webgpu-canvas";
                                  ConsoleError [ArgString "No canvas found to render to!"]])%list)
    /\ ~ In (GetContext "webgpu") (trace st).
Proof.
  apply (init_missing_canvas demo_shadersMap browser_without_canvas the_gpu
           {| adapter_device := the_device |}); reflexivity.
Defined.

(** C3, with an empty registry. *)
Lemma fetchShaderFile_unknown_id_witness :
  Main.fetchShaderFile [] "demo" good_browser initial_state
    = (Returned None, record_event (ConsoleError (not_found_message "demo")) initial_state)
  /\ exists rest,
      trace (snd (run (Main.init []) good_browser))
        = ([RequestAdapter; RequestDevice {| adapter_device := the_device |};
            ConsoleError (not_found_message "demo");
            CreateShaderModule {| code := None |}] ++ rest)%list.
Proof.
  split.
  - apply (proj1 (fetchShaderFile_unknown_id [] good_browser)). simpl. tauto.
  - apply (proj2 (fetchShaderFile_unknown_id [] good_browser) the_gpu);
      [simpl; tauto | reflexivity ..].
Defined.

(** C4, on the demo shader. *)
Lemma fetchShaderFile_known_id_witness :
  Main.fetchShaderFile demo_shadersMap "demo" good_browser initial_state
    = (Returned (Some demo_wgsl),
       record_event (ResponseText "shaders/demo.wgsl")
         (record_event (Fetch "shaders/demo.wgsl") initial_state)).
Proof.
  apply (fetchShaderFile_known_id demo_shadersMap "demo" "shaders/demo.wgsl"
           good_browser initial_state);
    [reflexivity | discriminate | reflexivity ..].
Defined.

(** C7, on the demo page. *)
Lemma init_pipeline_vertex_layout_witness :
  buffers (vertex demo_pipelineDescriptor)
    = [ {| attributes :=
             [ {| shaderLocation := 0; offset := 0; format := float32x4 |};
               {| shaderLocation := 1; offset := 16; format := float32x4 |} ];
           arrayStride := 32;
           stepMode := step_vertex |} ]
  /\ topology (primitive demo_pipelineDescriptor) = triangle_list.
Proof.
  apply (init_pipeline_vertex_layout demo_shadersMap good_browser demo_pipelineDescriptor).
  vm_compute. do 14 right. left. reflexivity.
Defined.

(** C9, on the demo page: the run goes through, one draw of 3 vertices,
    one submission of one command buffer. *)
Lemma init_draws_once_witness :
  fst (run (Main.init demo_shadersMap) good_browser) = Returned tt
  /\ draws (trace (snd (run (Main.init demo_shadersMap) good_browser))) = [3]
  /\ submissions (trace (snd (run (Main.init demo_shadersMap) good_browser)))
     = [[CommandBuffer CommandEncoder]].
Proof.
  split; [reflexivity|].
  apply (proj2 (proj2 (init_draws_once demo_shadersMap good_browser))). reflexivity.
Defined.

(** C8 as amended, on the demo page. *)
Lemma init_pipeline_layout_witness :
  layout part000_pipelineDescriptor = layout_auto
  /\ layout demo_pipelineDescriptor = layout_explicit {| bindGroupLayouts := [] |}.
Proof.
  split.
  - apply (proj1 (init_pipeline_layout demo_shadersMap good_browser
                    part000_pipelineDescriptor)).
    vm_compute. do 14 right. left. reflexivity.
  - apply (proj2 (init_pipeline_layout demo_shadersMap good_browser
                    demo_pipelineDescriptor)).
    vm_compute. do 14 right. left. reflexivity.
Defined.

(** The loader on a registry that points to a file the server does not
    have. *)
Lemma fetchShaderFile_fetch_failure_witness :
  Main.fetchShaderFile [ {| id := "demo"; src := "shaders/missing.wgsl" |} ] "demo"
    good_browser initial_state
    = (Returned None,
       record_event
         (ConsoleError (fetch_failed_message "demo" (Error "Network response was not ok.")))
         (record_event (Fetch "shaders/missing.wgsl") initial_state)).
Proof.
  apply (fetchShaderFile_fetch_failure _ "demo" "shaders/missing.wgsl");
    [reflexivity | discriminate | right; repeat split; reflexivity].
Defined.

(** The demo page's run goes through. *)
Lemma init_returns_witness :
  fst (run (Main.init demo_shadersMap) good_browser) = Returned tt.
Proof.
  apply (init_returns demo_shadersMap good_browser the_gpu
           {| adapter_device := the_device |} the_canvas (CanvasContext "webgpu-canvas"));
    reflexivity.
Defined.

(** * More of the program *)

(** ** [createGPUBuffer]: the store *)

(** The run in which nothing throws. *)
Lemma createGPUBuffer_ok_run (device : GPUDevice) (buffer : TypedArray) (usage : Z)
    (w : Browser) (st : State) :
  let d := {| size := byteLength buffer; usage := usage; mappedAtCreation := true |} in
  let i := length (gpuBuffers st) in
  let t := view_type_for (elementType buffer) in
  set_error t (byteLength buffer) buffer = None ->
  faults w (CreateBuffer d) = None ->
  faults w (GetMappedRange i) = None ->
  faults w (Unmap i) = None ->
  Main.createGPUBuffer device buffer usage w st
    = (Returned {| buffer_id := i; buffer_size := byteLength buffer; buffer_usage := usage |},
       {| trace := trace st ++ [CreateBuffer d; GetMappedRange i]
                     ++ (if supported (elementType buffer) then []
                         else [ConsoleError unhandled_message])
                     ++ [Unmap i];
          gpuBuffers :=
            gpuBuffers st ++ [{| mapState := unmapped;
                                 data := Stored t (elements buffer) |}] |}).
Proof.
  cbv zeta. intros Hset Hcreate Hrange Hunmap.
  rewrite createGPUBuffer_run. cbv zeta. rewrite Hcreate, Hrange, Hset, Hunmap.
  f_equal. destruct (supported (elementType buffer));
    unfold set_buffers, record_event; cbn [trace gpuBuffers]; f_equal;
    try (rewrite <- !app_assoc; reflexivity);
    rewrite list_alter_alter_eq, alter_app_r_alt by lia;
    rewrite Nat.sub_diag; reflexivity.
Qed.

(** [createGPUBuffer] never touches the buffers that exist already: it
    adds at most one buffer at the end of the store, and the buffer it
    returns is that one. *)
Theorem createGPUBuffer_keeps_other_buffers (device : GPUDevice) (buffer : TypedArray)
    (usage : Z) (w : Browser) (st : State) :
  let st' := snd (Main.createGPUBuffer device buffer usage w st) in
  take (length (gpuBuffers st)) (gpuBuffers st') = gpuBuffers st
  /\ (length (gpuBuffers st') <= S (length (gpuBuffers st)))%nat
  /\ (forall gpuBuffer,
         fst (Main.createGPUBuffer device buffer usage w st) = Returned gpuBuffer ->
         buffer_id gpuBuffer = length (gpuBuffers st)
         /\ length (gpuBuffers st') = S (length (gpuBuffers st))).
Proof.
  cbv zeta. rewrite createGPUBuffer_run. cbv zeta.
  assert (Hone : length (gpuBuffers st ++ [{| mapState := mapped; data := Zeroed |}])
                 = S (length (gpuBuffers st)))
    by (rewrite length_app; cbn; lia).
  destruct (faults w (CreateBuffer _)).
  { cbn. rewrite take_ge by lia.
    split; [reflexivity|]. split; [lia|]. intros g Hg. discriminate Hg. }
  destruct (faults w (GetMappedRange _)).
  { cbn. rewrite take_app_length, Hone.
    split; [reflexivity|]. split; [lia|]. intros g Hg. discriminate Hg. }
  destruct (set_error _ _ _).
  { cbn. rewrite take_app_length, Hone.
    split; [reflexivity|]. split; [lia|]. intros g Hg. discriminate Hg. }
  destruct (supported _), (faults w (Unmap _));
    cbn [fst snd gpuBuffers set_buffers record_event];
    rewrite ?list_alter_alter_eq, alter_app_r_alt by lia;
    rewrite take_app_length, length_app, length_alter; cbn [length];
    (split; [reflexivity|]); (split; [lia|]);
    intros g Hg; try discriminate Hg;
    injection Hg as <-; cbn; lia.
Qed.

(** There is no cleanup on failure: when the device has created the
    buffer and [createGPUBuffer] then throws, the new buffer is still
    mapped. *)
Theorem createGPUBuffer_throw_leaves_mapped (device : GPUDevice) (buffer : TypedArray)
    (usage : Z) (w : Browser) (st st' : State) (e : JsError) :
  faults w (CreateBuffer {| size := byteLength buffer; usage := usage;
                            mappedAtCreation := true |}) = None ->
  Main.createGPUBuffer device buffer usage w st = (Thrown e, st') ->
  mapState <$> gpuBuffers st' !! length (gpuBuffers st) = Some mapped.
Proof.
  intros Hcreate. rewrite createGPUBuffer_run. cbv zeta. rewrite Hcreate.
  destruct (faults w (GetMappedRange _)).
  { intros [= _ <-]. cbn. rewrite list_lookup_middle by reflexivity. reflexivity. }
  destruct (set_error _ _ _).
  { intros [= _ <-]. cbn. rewrite list_lookup_middle by reflexivity. reflexivity. }
  destruct (faults w (Unmap _)); [|discriminate].
  intros [= _ <-]. destruct (supported _); cbn [gpuBuffers set_buffers record_event];
    rewrite list_lookup_alter_eq, list_lookup_middle by reflexivity; reflexivity.
Qed.

(** ** [createGPUBuffer]: the branch for the other element types *)

Lemma set_error_Float32_wide (buffer : TypedArray) :
  elementType buffer = Int32 \/ elementType buffer = Float64 ->
  set_error Float32 (byteLength buffer) buffer = None.
Proof.
  unfold set_error, byteLength. cbn [BYTES_PER_ELEMENT contentType].
  assert (Hlen : 0 <= array_length buffer) by (unfold array_length; lia).
  intros [-> | ->]; cbn [BYTES_PER_ELEMENT contentType ContentType_eqb negb].
  - rewrite Z.mod_mul, Z.div_mul by lia. cbn. rewrite Z.ltb_irrefl. reflexivity.
  - replace (array_length buffer * 8) with (array_length buffer * 2 * 4) by lia.
    rewrite Z.mod_mul, Z.div_mul by lia. cbn.
    destruct (Z.ltb_spec (array_length buffer * 2) (array_length buffer)); [lia|].
    reflexivity.
Qed.

Lemma set_error_Float32_fallback (buffer : TypedArray) :
  supported (elementType buffer) = false ->
  set_error Float32 (byteLength buffer) buffer = None ->
  elementType buffer = Int32 \/ elementType buffer = Float64 \/ elements buffer = [].
Proof.
  intros Hsup Hset.
  destruct (elements buffer) as [|x xs] eqn:Hels; [auto|].
  assert (Hne : elements buffer <> []) by congruence.
  assert (Hmod : byteLength buffer mod 4 = 0).
  { unfold set_error in Hset. cbn [BYTES_PER_ELEMENT] in Hset.
    destruct (Z.eqb_spec (byteLength buffer mod 4) 0); [assumption | discriminate]. }
  destruct (elementType buffer) eqn:Ht; try discriminate Hsup; auto.
  all: try (rewrite set_error_narrow_elements in Hset;
            [discriminate | rewrite Ht; reflexivity | assumption | assumption]).
  all: unfold set_error in Hset; rewrite Ht in Hset;
    cbn [BYTES_PER_ELEMENT contentType ContentType_eqb negb] in Hset;
    destruct (_ =? 0); [destruct (_ <? _)|]; discriminate.
Qed.

(** A source array of an element type without a branch gets a buffer
    only if it is an [Int32Array], a [Float64Array] or empty; and then
    exactly one console error, [Unhandled buffer format  object], has
    been logged. *)
Theorem createGPUBuffer_fallback_only_wide (device : GPUDevice) (buffer : TypedArray)
    (usage : Z) (w : Browser) (st st' : State) (gpuBuffer : GPUBuffer) :
  supported (elementType buffer) = false ->
  Main.createGPUBuffer device buffer usage w st = (Returned gpuBuffer, st') ->
  (elementType buffer = Int32 \/ elementType buffer = Float64 \/ elements buffer = [])
  /\ exists evs,
      trace st' = (trace st ++ evs)%list
      /\ console_errors evs = [unhandled_message].
Proof.
  intros Hsup. rewrite createGPUBuffer_run. cbv zeta.
  unfold view_type_for. rewrite Hsup.
  destruct (faults w (CreateBuffer _)); [discriminate|].
  destruct (faults w (GetMappedRange _)); [discriminate|].
  destruct (set_error _ _ _) eqn:Hset; [discriminate|].
  destruct (faults w (Unmap _)); [discriminate|].
  intros [= _ <-]. split; [apply set_error_Float32_fallback; assumption|].
  eexists. split; [trace_nf; reflexivity | reflexivity].
Qed.

(** For an [Int32Array] or a [Float64Array] the branch goes through
    when the platform accepts the calls: the elements are stored as
    float32 values, the error is logged, the buffer is unmapped and
    returned. *)
Theorem createGPUBuffer_fallback_wide_numbers (device : GPUDevice) (buffer : TypedArray)
    (usage : Z) (w : Browser) (st : State) :
  let d := {| size := byteLength buffer; usage := usage; mappedAtCreation := true |} in
  let i := length (gpuBuffers st) in
  elementType buffer = Int32 \/ elementType buffer = Float64 ->
  faults w (CreateBuffer d) = None ->
  faults w (GetMappedRange i) = None ->
  faults w (Unmap i) = None ->
  Main.createGPUBuffer device buffer usage w st
    = (Returned {| buffer_id := i; buffer_size := byteLength buffer; buffer_usage := usage |},
       {| trace := trace st ++ [CreateBuffer d; GetMappedRange i;
                                ConsoleError unhandled_message; Unmap i];
          gpuBuffers :=
            gpuBuffers st ++ [{| mapState := unmapped;
                                 data := Stored Float32 (elements buffer) |}] |}).
Proof.
  cbv zeta. intros Ht Hcreate Hrange Hunmap.
  assert (Hsup : supported (elementType buffer) = false)
    by (destruct Ht as [-> | ->]; reflexivity).
  rewrite createGPUBuffer_ok_run; try assumption.
  - unfold view_type_for. rewrite Hsup. reflexivity.
  - unfold view_type_for. rewrite Hsup. apply set_error_Float32_wide, Ht.
Qed.

(** Two buffers made one after the other, from sources of element
    types that have a branch, on a platform that accepts every call:
    they get consecutive ids, and making the second leaves the first
    as it was, unmapped and with its own data. *)
Theorem createGPUBuffer_twice (device : GPUDevice) (first second : TypedArray)
    (usage1 usage2 : Z) (w : Browser) (st : State) :
  supported (elementType first) = true ->
  supported (elementType second) = true ->
  (forall c, faults w c = None) ->
  (b1 <- Main.createGPUBuffer device first usage1 ;;
   b2 <- Main.createGPUBuffer device second usage2 ;;
   ret (b1, b2)) w st
    = (Returned ({| buffer_id := length (gpuBuffers st);
                    buffer_size := byteLength first; buffer_usage := usage1 |},
                 {| buffer_id := S (length (gpuBuffers st));
                    buffer_size := byteLength second; buffer_usage := usage2 |}),
       {| trace :=
            trace st
              ++ [CreateBuffer {| size := byteLength first; usage := usage1;
                                  mappedAtCreation := true |};
                  GetMappedRange (length (gpuBuffers st));
                  Unmap (length (gpuBuffers st));
                  CreateBuffer {| size := byteLength second; usage := usage2;
                                  mappedAtCreation := true |};
                  GetMappedRange (S (length (gpuBuffers st)));
                  Unmap (S (length (gpuBuffers st)))];
          gpuBuffers :=
            gpuBuffers st
              ++ [{| mapState := unmapped;
                     data := Stored (elementType first) (elements first) |};
                  {| mapState := unmapped;
                     data := Stored (elementType second) (elements second) |}] |}).
Proof.
  intros Hfirst Hsecond Hquiet. unfold bind at 1.
  rewrite createGPUBuffer_ok_run; auto.
  2: { unfold view_type_for. rewrite Hfirst. apply set_error_same_type. }
  unfold bind at 1. rewrite createGPUBuffer_ok_run; auto.
  2: { unfold view_type_for. rewrite Hsecond. apply set_error_same_type. }
  unfold view_type_for. rewrite Hfirst, Hsecond.
  cbn [trace gpuBuffers ret]. rewrite length_app. cbn [length].
  rewrite Nat.add_1_r, <- !app_assoc. reflexivity.
Qed.

(** ** The calculus on views *)

Lemma gpu_calls_snoc tr e :
  gpu_calls (tr ++ [e]) = if is_gpu_call e then (gpu_calls tr ++ [e])%list else gpu_calls tr.
Proof.
  unfold gpu_calls. rewrite List.filter_app. cbn.
  destruct (is_gpu_call e); [reflexivity | apply app_nil_r].
Qed.

Lemma gpu_view_record e st : gpu_view (record_event e st) = call e (gpu_view st).
Proof.
  unfold gpu_view, call. cbn [trace gpuBuffers record_event]. rewrite gpu_calls_snoc.
  destruct (is_gpu_call e); reflexivity.
Qed.

Lemma gpu_view_set_buffers bs st : gpu_view (set_buffers bs st) = with_store bs (gpu_view st).
Proof. reflexivity. Qed.

Lemma gpu_view_loader_events evs st :
  forallb is_loader_event evs = true -> gpu_view (add_events evs st) = gpu_view st.
Proof.
  intros Hevs. unfold gpu_view. cbn [trace gpuBuffers add_events]. f_equal.
  unfold gpu_calls. rewrite List.filter_app.
  assert (Hnone : List.filter is_gpu_call evs = []).
  { induction evs as [|e evs IH]; [reflexivity|].
    cbn in Hevs. apply andb_prop in Hevs as [He Hevs]. cbn.
    destruct e; try discriminate He; cbn; auto. }
  rewrite Hnone. apply app_nil_r.
Qed.

Lemma wpv_run {A : Type} (m : M A) w (Q : outcome A -> GpuView -> Prop) :
  wp_view m w nothing_called Q ->
  Q (fst (run m w)) (gpu_view (snd (run m w))).
Proof. intros H. exact (H initial_state eq_refl). Qed.

Lemma wpv_ret {A : Type} (v : A) w x (Q : outcome A -> GpuView -> Prop) :
  Q (Returned v) x -> wp_view (ret v) w x Q.
Proof. intros H st <-. exact H. Qed.

Lemma wpv_throw {A : Type} (e : JsError) w x (Q : outcome A -> GpuView -> Prop) :
  Q (Thrown e) x -> wp_view (throw e) w x Q.
Proof. intros H st <-. exact H. Qed.

Lemma wpv_assoc {A B C : Type} (m : M A) (f : A -> M B) (k : B -> M C) w x Q :
  wp_view (bind m (fun v => bind (f v) k)) w x Q -> wp_view (bind (bind m f) k) w x Q.
Proof. intros H st Hst. apply wp_assoc, H, Hst. Qed.

Lemma wpv_bind_ret {A B : Type} (v : A) (k : A -> M B) w x Q :
  wp_view (k v) w x Q -> wp_view (bind (ret v) k) w x Q.
Proof. exact (fun H => H). Qed.

Lemma wpv_bind_throw {A B : Type} (e : JsError) (k : A -> M B) w x Q :
  Q (Thrown e) x -> wp_view (bind (throw e) k) w x Q.
Proof. intros H st <-. exact H. Qed.

Lemma wpv_ask {B : Type} (k : Browser -> M B) w x Q :
  wp_view (k w) w x Q -> wp_view (bind ask k) w x Q.
Proof. exact (fun H => H). Qed.

Lemma wpv_command {B : Type} (c : Event) (k : unit -> M B) w x Q :
  (forall e, faults w c = Some e -> Q (Thrown e) (call c x)) ->
  (faults w c = None -> wp_view (k tt) w (call c x) Q) ->
  wp_view (bind (api c) k) w x Q.
Proof.
  intros Hthrow Hk st <-. apply wp_command.
  - intros e He. rewrite gpu_view_record. exact (Hthrow e He).
  - intros Hok. apply (Hk Hok). apply gpu_view_record.
Qed.

Lemma wpv_last_command (c : Event) w x (Q : outcome unit -> GpuView -> Prop) :
  (forall e, faults w c = Some e -> Q (Thrown e) (call c x)) ->
  (faults w c = None -> Q (Returned tt) (call c x)) ->
  wp_view (api c) w x Q.
Proof.
  intros Hthrow Hk st <-. apply wp_last_command.
  - intros e He. rewrite gpu_view_record. exact (Hthrow e He).
  - intros Hok. rewrite gpu_view_record. exact (Hk Hok).
Qed.

Lemma wpv_deref {A B : Type} (o : option A) (p : string) (k : A -> M B) w x Q :
  (o = None ->
   Q (Thrown (TypeError ("Cannot read properties of null (reading '" ++ p ++ "')"))) x) ->
  (forall v, o = Some v -> wp_view (k v) w x Q) ->
  wp_view (bind (deref o p) k) w x Q.
Proof.
  intros Hnull Hsome st Hst. apply wp_deref.
  - intros Ho. rewrite Hst. exact (Hnull Ho).
  - intros v Ho. exact (Hsome v Ho st Hst).
Qed.

Lemma wpv_silent {A B : Type} (m : M A) (k : A -> M B) w x Q :
  silent m ->
  (forall e, Q (Thrown e) x) ->
  (forall v, wp_view (k v) w x Q) ->
  wp_view (bind m k) w x Q.
Proof.
  intros Hsilent Hthrow Hk st Hst. apply wp_bind. unfold wp.
  specialize (Hsilent w st). destruct (m w st) as [[v|e] st']; cbn in *.
  - apply Hk. congruence.
  - rewrite Hsilent, Hst. apply Hthrow.
Qed.

Lemma wpv_try_catch {A : Type} (body : M A) (handler : JsError -> M A) w x Q :
  wp_view body w x (fun o x' =>
                      match o with
                      | Returned v => Q (Returned v) x'
                      | Thrown e => wp_view (handler e) w x' Q
                      end) ->
  wp_view (try_catch body handler) w x Q.
Proof.
  intros Hbody st Hst. apply wp_try_catch. specialize (Hbody st Hst).
  unfold wp in *. destruct (body w st) as [[v|e] st']; cbn in *; [exact Hbody|].
  exact (Hbody st' eq_refl).
Qed.

Lemma wpv_alloc_buffer {B : Type} (d : GPUBufferDescriptor) (k : GPUBuffer -> M B) w x Q :
  wp_view (k {| buffer_id := length (store x);
                buffer_size := size d; buffer_usage := usage d |}) w
          (with_store
             (store x ++ [{| mapState := if mappedAtCreation d then mapped else unmapped;
                             data := Zeroed |}]) x) Q ->
  wp_view (bind (alloc_buffer d) k) w x Q.
Proof. intros H st <-. exact (H (set_buffers _ st) eq_refl). Qed.

Lemma wpv_update_buffer {B : Type} (f : BufferState -> BufferState) (i : nat)
    (k : unit -> M B) w x Q :
  wp_view (k tt) w (with_store (alter f i (store x)) x) Q ->
  wp_view (bind (update_buffer f i) k) w x Q.
Proof. intros H st <-. exact (H (set_buffers _ st) eq_refl). Qed.

Lemma silent_console_error args : silent (console_error args).
Proof. intros w st. apply gpu_view_record. Qed.

Lemma silent_console_warn args : silent (console_warn args).
Proof. intros w st. apply gpu_view_record. Qed.

Lemma silent_of_wp_view {A : Type} (m : M A) :
  (forall w x, wp_view m w x (fun _ x' => x' = x)) -> silent m.
Proof. intros H w st. exact (H w _ st eq_refl). Qed.

Lemma silent_Main_fetchShaderFile shadersMap shaderId :
  silent (Main.fetchShaderFile shadersMap shaderId).
Proof.
  intros w st.
  destruct (fetchShaderFile_run shadersMap shaderId w st) as (code & evs & -> & Hevs).
  apply gpu_view_loader_events, Hevs.
Qed.

(** [createGPUBuffer] on a source of an element type that has a
    branch, on views. *)
Lemma wpv_createGPUBuffer {B : Type} (device : GPUDevice) (buffer : TypedArray) (usage : Z)
    (k : GPUBuffer -> M B) (w : Browser) (x : GpuView) Q :
  let d := {| size := byteLength buffer; usage := usage; mappedAtCreation := true |} in
  let i := length (store x) in
  let filled (m : GPUBufferMapState) : list BufferState :=
    (store x ++ [{| mapState := m;
                    data := Stored (elementType buffer) (elements buffer) |}])%list in
  supported (elementType buffer) = true ->
  (forall e, faults w (CreateBuffer d) = Some e ->
             Q (Thrown e) {| calls := calls x ++ [CreateBuffer d]; store := store x |}) ->
  (forall e, faults w (GetMappedRange i) = Some e ->
             Q (Thrown e)
               {| calls := calls x ++ [CreateBuffer d; GetMappedRange i];
                  store := store x ++ [{| mapState := mapped; data := Zeroed |}] |}) ->
  (forall e, faults w (Unmap i) = Some e ->
             Q (Thrown e)
               {| calls := calls x ++ [CreateBuffer d; GetMappedRange i; Unmap i];
                  store := filled mapped |}) ->
  wp_view (k {| buffer_id := i; buffer_size := byteLength buffer; buffer_usage := usage |}) w
          {| calls := calls x ++ [CreateBuffer d; GetMappedRange i; Unmap i];
             store := filled unmapped |} Q ->
  wp_view (bind (Main.createGPUBuffer device buffer usage) k) w x Q.
Proof.
  cbv zeta. intros Hsup Hcreate Hrange Hunmap Hk st <-.
  unfold wp, bind. rewrite createGPUBuffer_run. cbv zeta.
  unfold view_type_for. rewrite Hsup, set_error_same_type.
  cbn [store calls gpu_view] in *.
  destruct (faults w (CreateBuffer _)) as [e|].
  { cbn [fst snd]. rewrite gpu_view_record. exact (Hcreate e eq_refl). }
  destruct (faults w (GetMappedRange _)) as [e|].
  { cbn [fst snd]. rewrite gpu_view_record, gpu_view_set_buffers, gpu_view_record.
    unfold call, with_store. cbn [is_gpu_call calls store].
    rewrite <- app_assoc. exact (Hrange e eq_refl). }
  destruct (faults w (Unmap _)) as [e|].
  - cbn [fst snd]. rewrite gpu_view_record, gpu_view_set_buffers, gpu_view_record,
      gpu_view_set_buffers, gpu_view_record.
    unfold call, with_store. cbn [is_gpu_call calls store gpuBuffers set_buffers record_event].
    rewrite <- !app_assoc, alter_app_r_alt, Nat.sub_diag by lia.
    exact (Hunmap e eq_refl).
  - apply Hk. rewrite gpu_view_set_buffers, gpu_view_record, gpu_view_set_buffers, gpu_view_record,
      gpu_view_set_buffers, gpu_view_record.
    unfold call, with_store. cbn [is_gpu_call calls store gpuBuffers set_buffers record_event].
    rewrite <- !app_assoc, list_alter_alter_eq, alter_app_r_alt, Nat.sub_diag by lia.
    reflexivity.
Qed.

(** One step of a run, on views. *)
Ltac wpv_step :=
  lazymatch goal with
  | |- wp_view (bind (bind _ _) _) _ _ _ => apply wpv_assoc
  | |- wp_view (bind (api _) _) _ _ _ => apply wpv_command; [intros ? ? | intros ?]
  | |- wp_view (bind (ret _) _) _ _ _ => apply wpv_bind_ret
  | |- wp_view (bind ask _) _ _ _ => apply wpv_ask
  | |- wp_view (bind (deref _ _) _) _ _ _ => apply wpv_deref; [intros ? | intros ? ?]
  | |- wp_view (bind (throw _) _) _ _ _ => apply wpv_bind_throw
  | |- wp_view (bind (console_error _) _) _ _ _ =>
      apply wpv_silent; [apply silent_console_error | intros ? | intros ?]
  | |- wp_view (bind (console_warn _) _) _ _ _ =>
      apply wpv_silent; [apply silent_console_warn | intros ? | intros ?]
  | |- wp_view (bind (alloc_buffer _) _) _ _ _ => apply wpv_alloc_buffer
  | |- wp_view (bind (update_buffer _ _) _) _ _ _ => apply wpv_update_buffer
  | |- wp_view (bind (Main.fetchShaderFile _ _) _) _ _ _ =>
      apply wpv_silent; [apply silent_Main_fetchShaderFile | intros ? | intros ?]
  | |- wp_view (bind (Main.createGPUBuffer _ _ _) _) _ _ _ =>
      apply wpv_createGPUBuffer; [reflexivity | intros ? ? | intros ? ? | intros ? ? | ]
  | |- wp_view (bind (match ?v with _ => _ end) _) _ _ _ => destruct v eqn:?
  | |- wp_view (match ?v with _ => _ end) _ _ _ => destruct v eqn:?
  | |- wp_view (api _) _ _ _ => apply wpv_last_command; [intros ? ? | intros ?]
  | |- wp_view (throw _) _ _ _ => apply wpv_throw
  | |- wp_view (ret _) _ _ _ => apply wpv_ret
  end;
  cbv beta iota;
  cbn [call with_store is_gpu_call calls store nothing_called app length].

(** ** The shader loader of [src/main.ts], continued *)

Lemma find_src_app_first (before after : list ShaderEntry) (e : ShaderEntry) :
  ~ In (id e) (map id before) ->
  Main.find_src (before ++ e :: after) (id e) = Some (src e).
Proof.
  induction before as [|e' before IH]; intros Hnot; cbn.
  - rewrite String.eqb_refl. reflexivity.
  - destruct (String.eqb_spec (id e') (id e)) as [Heq|Hne].
    + exfalso. apply Hnot. left. exact Heq.
    + apply IH. intros Hin. apply Hnot. right. exact Hin.
Qed.

Lemma truthy_Some (src : option string) (path : string) :
  truthy src = Some path -> src = Some path /\ path <> "".
Proof.
  destruct src as [s|]; [|discriminate]. cbn.
  destruct (String.eqb_spec s ""); [discriminate|]. intros [= <-]. auto.
Qed.

Ltac extends_trace :=
  eexists; split;
  [ cbn [trace record_event]; rewrite <- ?app_assoc; reflexivity | ].

(** When several entries of the registry have the same id, the first
    one wins: the loader fetches its path, whatever comes after it. *)
Theorem fetchShaderFile_first_match (before after : list ShaderEntry) (e : ShaderEntry)
    (w : Browser) (st : State) :
  ~ In (id e) (map id before) ->
  src e <> "" ->
  exists evs,
    trace (snd (Main.fetchShaderFile (before ++ e :: after) (id e) w st))
      = (trace st ++ evs)%list
    /\ fetches evs = [src e].
Proof.
  intros Hnot Hsrc.
  change (wp (Main.fetchShaderFile (before ++ e :: after) (id e)) w st
             (fun _ st' => exists evs, trace st' = (trace st ++ evs)%list
                                       /\ fetches evs = [src e])).
  unfold Main.fetchShaderFile. rewrite find_src_app_first by exact Hnot.
  cbn [truthy]. destruct (String.eqb_spec (src e) ""); [contradiction|].
  unfold fetch, text. apply wp_try_catch. repeat wp_step.
  all: extends_trace; reflexivity.
Qed.

(** The loader never retries: in any run it makes at most one fetch,
    and that one is for the non-empty path the registry gives for the
    id. *)
Theorem fetchShaderFile_one_fetch (shadersMap : list ShaderEntry) (shaderId : string)
    (w : Browser) (st : State) :
  exists evs,
    trace (snd (Main.fetchShaderFile shadersMap shaderId w st)) = (trace st ++ evs)%list
    /\ (fetches evs = []
        \/ exists path, Main.find_src shadersMap shaderId = Some path
                        /\ path <> "" /\ fetches evs = [path]).
Proof.
  change (wp (Main.fetchShaderFile shadersMap shaderId) w st
             (fun _ st' =>
                exists evs, trace st' = (trace st ++ evs)%list
                  /\ (fetches evs = []
                      \/ exists path, Main.find_src shadersMap shaderId = Some path
                                      /\ path <> "" /\ fetches evs = [path]))).
  unfold Main.fetchShaderFile, fetch, text.
  destruct (truthy (Main.find_src shadersMap shaderId)) as [path|] eqn:Hsrc.
  - apply truthy_Some in Hsrc as [Hfound Hpath].
    apply wp_try_catch. repeat wp_step.
    all: extends_trace; right; exists path; auto.
  - repeat wp_step. extends_trace. left. reflexivity.
Qed.

(** A failure while reading the body is caught like a failed fetch:
    when the response is [ok] but [response.text()] rejects, the loader
    logs the error and returns [undefined]. *)
Theorem fetchShaderFile_text_failure (shadersMap : list ShaderEntry)
    (shaderId path : string) (error : JsError) (w : Browser) (st : State) :
  Main.find_src shadersMap shaderId = Some path ->
  path <> "" ->
  faults w (Fetch path) = None ->
  ok (network w path) = true ->
  faults w (ResponseText (url (network w path))) = Some error ->
  Main.fetchShaderFile shadersMap shaderId w st
    = (Returned None,
       record_event (ConsoleError (fetch_failed_message shaderId error))
         (record_event (ResponseText (url (network w path)))
            (record_event (Fetch path) st))).
Proof.
  intros Hfound Hpath Hfetch Hok Htext.
  unfold Main.fetchShaderFile. rewrite Hfound. cbn [truthy].
  destruct (String.eqb_spec path "") as [|_]; [contradiction|].
  unfold try_catch, fetch, text, bind, api, ask, ret, throw, console_error.
  rewrite Hfetch. cbn. rewrite Hok. cbn. rewrite Htext. reflexivity.
Qed.

(** The run of the loader when the fetch fails. *)
Lemma fetchShaderFile_failed_run (shadersMap : list ShaderEntry)
    (shaderId path : string) (error : JsError) (w : Browser) :
  Main.find_src shadersMap shaderId = Some path ->
  path <> "" ->
  faults w (Fetch path) = Some error
  \/ (faults w (Fetch path) = None /\ ok (network w path) = false
      /\ error = Error "Network response was not ok.") ->
  forall st,
    Main.fetchShaderFile shadersMap shaderId w st
      = (Returned None,
         record_event (ConsoleError (fetch_failed_message shaderId error))
           (record_event (Fetch path) st)).
Proof.
  intros Hfound Hpath Hfail st.
  unfold Main.fetchShaderFile. rewrite Hfound. cbn [truthy].
  destruct (String.eqb_spec path "") as [|_]; [contradiction|].
  unfold try_catch, fetch, text, bind, api, ask, ret, throw, console_error.
  destruct Hfail as [Hrejected | (Hfetch & Hok & ->)].
  - rewrite Hrejected. reflexivity.
  - rewrite Hfetch. cbn. rewrite Hok. reflexivity.
Qed.

(** ** [init] of [src/main.ts], continued *)

(** A run of [init] under hypotheses on the page and the platform. *)
Ltac run_main :=
  repeat (cbv beta iota;
          lazymatch goal with
          | H : ?v = _ |- wp (match ?v with _ => _ end) _ _ _ => rewrite H
          | H : ?v = _ |- wp (bind (match ?v with _ => _ end) _) _ _ _ => rewrite H
          | H : ?v = _ |- wp (bind (deref ?v _) _) _ _ _ => rewrite H
          | |- wp (bind (deref (Some _) _) _) _ _ _ => apply wp_deref_some
          | |- wp (bind (deref None _) _) _ _ _ => apply wp_deref_none
          | H : forall st, Main.fetchShaderFile _ ?i ?w st = _
            |- wp (bind (Main.fetchShaderFile _ ?i) _) ?w _ _ =>
              eapply wp_bind_eq; [apply H|]
          | |- wp (bind (Main.fetchShaderFile _ _) _) _ _ _ =>
              apply wp_fetchShaderFile; intros ? ? ?
          | _ => wp_step
          end;
          try no_fault).

Lemma ends_with_record recent e st :
  ends_with recent st -> ends_with (e :: recent) (record_event e st).
Proof.
  intros [before H]. exists before. cbn [trace record_event rev].
  rewrite H, app_assoc. reflexivity.
Qed.

Lemma ends_with_nil st : ends_with [] st.
Proof. exists (trace st). symmetry. apply app_nil_r. Qed.

Lemma ends_with_chronological recent st l :
  l = rev recent -> ends_with recent st -> exists before, trace st = (before ++ l)%list.
Proof. intros ->. exact (fun H => H). Qed.

Lemma In_gpu_calls e tr : is_gpu_call e = true -> In e (gpu_calls tr) <-> In e tr.
Proof. intros He. unfold gpu_calls. rewrite List.filter_In. tauto. Qed.

(** Which element of a list of events a given one is. *)
Ltac in_cases H :=
  cbn [In] in H;
  repeat (destruct H as [H|H]; [try discriminate H|]);
  try contradiction.

Ltac in_list := cbn [In]; repeat first [left; reflexivity | right].

(** When the canvas is there but gives no WebGPU context
    ([getContext] returns [null]), [init] does not check: the next
    statement reads [configure] of [null] and throws a [TypeError].
    [getContext] is the last call made; the canvas is never
    configured. *)
Theorem init_null_context (shadersMap : list ShaderEntry) (w : Browser) (gpu : GPU)
    (adapter : GPUAdapter) (canvas : Element) :
  navigator_gpu w = Some gpu -> gpu_adapter gpu = Some adapter ->
  faults w RequestAdapter = None -> faults w (RequestDevice adapter) = None ->
  (forall d, faults w (CreateShaderModule d) = None) ->
  faults w (QuerySelector "#webgpu-canvas") = None ->
  document_querySelector w "#webgpu-canvas" = Some canvas ->
  faults w (GetContext "webgpu") = None ->
  element_context canvas = None ->
  exists st,
    run (Main.init shadersMap) w
      = (Thrown (TypeError "Cannot read properties of null (reading 'configure')"), st)
    /\ (exists before,
           trace st = (before ++ [QuerySelector "#webgpu-canvas"; GetContext "webgpu"])%list)
    /\ forall c, ~ In (Configure c) (trace st).
Proof.
  intros Hgpu Hadapter Hra Hrd Hcsm Hqs Hcanvas Hgc Hcontext.
  enough (wp (Main.init shadersMap) w initial_state
             (fun o st =>
                o = Thrown (TypeError "Cannot read properties of null (reading 'configure')")
                /\ (exists before,
                       trace st = (before ++ [QuerySelector "#webgpu-canvas";
                                              GetContext "webgpu"])%list)
                /\ forall c, ~ In (Configure c) (gpu_calls (trace st)))) as H.
  { unfold wp in H. exists (snd (run (Main.init shadersMap) w)).
    destruct H as (Ho & Htr & Hno). repeat split; try assumption.
    - rewrite <- Ho. apply surjective_pairing.
    - intros c Hin. apply (Hno c), In_gpu_calls; [reflexivity | exact Hin]. }
  unfold Main.init. unfold_platform. run_main.
  split; [reflexivity|]. split.
  - eexists. cbn [trace record_event]. rewrite <- app_assoc. reflexivity.
  - match goal with
    | |- forall c, ~ In _ (gpu_calls (trace ?s)) =>
        change (gpu_calls (trace s)) with (calls (gpu_view s))
    end.
    rewrite !gpu_view_record, gpu_view_loader_events, !gpu_view_record by assumption.
    intros c Hin. in_cases Hin.
Qed.

(** A failed fetch does not stop [init]: when the shader is registered
    but its fetch is rejected, or answered with a response that is not
    [ok], the loader's error is logged and [init] goes on to create the
    shader module with [undefined] as its code. *)
Theorem init_fetch_failure_goes_on (shadersMap : list ShaderEntry) (w : Browser)
    (gpu : GPU) (adapter : GPUAdapter) (path : string) (error : JsError) :
  navigator_gpu w = Some gpu -> gpu_adapter gpu = Some adapter ->
  faults w RequestAdapter = None -> faults w (RequestDevice adapter) = None ->
  Main.find_src shadersMap "demo" = Some path ->
  path <> "" ->
  faults w (Fetch path) = Some error
  \/ (faults w (Fetch path) = None /\ ok (network w path) = false
      /\ error = Error "Network response was not ok.") ->
  exists rest,
    trace (snd (run (Main.init shadersMap) w))
      = ([RequestAdapter; RequestDevice adapter; Fetch path;
          ConsoleError (fetch_failed_message "demo" error);
          CreateShaderModule {| code := None |}] ++ rest)%list.
Proof.
  intros Hgpu Hadapter Hra Hrd Hfound Hpath Hfail.
  pose proof (fetchShaderFile_failed_run shadersMap "demo" path error w Hfound Hpath Hfail)
    as Hload.
  change (wp (Main.init shadersMap) w initial_state
             (fun _ => starts_with [RequestAdapter; RequestDevice adapter; Fetch path;
                                    ConsoleError (fetch_failed_message "demo" error);
                                    CreateShaderModule {| code := None |}])).
  clear Hfound Hpath Hfail.
  unfold Main.init. unfold_platform. run_main.
  all: solve_starts_with.
Qed.

Ltac main_step :=
  lazymatch goal with
  | |- wp (bind (Main.fetchShaderFile _ _) _) _ _ _ =>
      apply wp_fetchShaderFile; intros ? ? ?
  | _ => wp_step
  end.

(** The render pass of a complete run.  A run of [init] that goes
    through ends with these twelve calls, in this order: the pipeline
    is created, the encoder is created, the pass begins on a view of
    the canvas's current texture, cleared to the fixed colour; the
    viewport is the canvas; the pipeline set is the one just created
    and vertex buffer 0 is bound to slot 0; then the draw of 3
    vertices, the end of the pass, [finish] and the submission. *)
Theorem init_render_pass (shadersMap : list ShaderEntry) (w : Browser) :
  fst (run (Main.init shadersMap) w) = Returned tt ->
  exists canvas context pipeline,
    document_querySelector w "#webgpu-canvas" = Some canvas
    /\ element_context canvas = Some context
    /\ exists before,
        trace (snd (run (Main.init shadersMap) w))
        = (before ++
             [CreateRenderPipeline pipeline;
              CreateCommandEncoder;
              GetCurrentTexture;
              CreateView;
              BeginRenderPass
                {| colorAttachments :=
                     [ {| clearValue := Main.clearColor;
                          loadOp := "clear";
                          storeOp := "store";
                          view := CurrentTextureView context |} ] |};
              SetViewport 0 0 (width canvas) (height canvas) 0 1;
              SetPipeline pipeline;
              SetVertexBuffer 0 0;
              Draw 3;
              End;
              Finish;
              Submit [CommandBuffer CommandEncoder]])%list.
Proof.
  change (wp (Main.init shadersMap) w initial_state
            (fun o st =>
               o = Returned tt ->
               exists canvas context pipeline,
                 document_querySelector w "#webgpu-canvas" = Some canvas
                 /\ element_context canvas = Some context
                 /\ exists before,
                     trace st
                     = (before ++
                          [CreateRenderPipeline pipeline;
                           CreateCommandEncoder;
                           GetCurrentTexture;
                           CreateView;
                           BeginRenderPass
                             {| colorAttachments :=
                                  [ {| clearValue := Main.clearColor;
                                       loadOp := "clear";
                                       storeOp := "store";
                                       view := CurrentTextureView context |} ] |};
                           SetViewport 0 0 (width canvas) (height canvas) 0 1;
                           SetPipeline pipeline;
                           SetVertexBuffer 0 0;
                           Draw 3;
                           End;
                           Finish;
                           Submit [CommandBuffer CommandEncoder]])%list)).
  unfold Main.init. unfold_platform. repeat main_step.
  all: try (intros Hdone; discriminate Hdone).
  all: try match goal with H : None = Some _ |- _ => discriminate H end.
  intros _.
  match goal with
  | Hc : document_querySelector w _ = Some ?e, Hd : Some ?e = Some ?c,
    Hx : element_context ?c = Some ?x |- _ =>
      exists c, x; eexists; split; [congruence|]; split; [exact Hx|]
  end.
  eapply (ends_with_chronological
            [Submit _; Finish; End; Draw _; SetVertexBuffer _ _; SetPipeline _;
             SetViewport _ _ _ _ _ _; BeginRenderPass _; CreateView;
             GetCurrentTexture; CreateCommandEncoder; CreateRenderPipeline _]);
    [reflexivity|].
  repeat apply ends_with_record. apply ends_with_nil.
Qed.

(** The shader module and the canvas format reach the pipeline.  Every
    pipeline descriptor that a run of [init] hands to
    [createRenderPipeline] uses, for both stages, the module that the
    run has created with [createShaderModule], with the entry points
    [vertex_main] and [fragment_main]; and its one colour target has
    the format that the canvas was configured with. *)
Theorem init_pipeline_uses_loaded_shader (shadersMap : list ShaderEntry) (w : Browser)
    (d : GPURenderPipelineDescriptor) :
  let tr := trace (snd (run (Main.init shadersMap) w)) in
  In (CreateRenderPipeline d) tr ->
  In (CreateShaderModule (module (vertex d))) tr
  /\ fragment_module (fragment d) = module (vertex d)
  /\ entryPoint (vertex d) = "vertex_main"
  /\ fragment_entryPoint (fragment d) = "fragment_main"
  /\ exists c, In (Configure c) tr
               /\ targets (fragment d) = [ {| target_format := cfg_format c |} ].
Proof.
  cbv zeta. intros Hin.
  pose (Q := fun (_ : outcome unit) (x : GpuView) =>
       forall d, In (CreateRenderPipeline d) (calls x) ->
         In (CreateShaderModule (module (vertex d))) (calls x)
         /\ fragment_module (fragment d) = module (vertex d)
         /\ entryPoint (vertex d) = "vertex_main"
         /\ fragment_entryPoint (fragment d) = "fragment_main"
         /\ exists c, In (Configure c) (calls x)
                      /\ targets (fragment d) = [ {| target_format := cfg_format c |} ]).
  assert (Hrun : Q (fst (run (Main.init shadersMap) w))
                   (gpu_view (snd (run (Main.init shadersMap) w)))).
  { apply (wpv_run _ _ Q). unfold Q, Main.init. unfold_platform. repeat wpv_step.
    all: intros d' Hd'; in_cases Hd'.
    all: injection Hd' as <-.
    all: split; [in_list|]; do 3 (split; [reflexivity|]).
    all: eexists; split; [in_list | reflexivity]. }
  unfold Q in Hrun.
  cbv beta in Hrun. cbn [calls gpu_view] in Hrun.
  apply (proj2 (In_gpu_calls (CreateRenderPipeline d) _ eq_refl)) in Hin.
  destruct (Hrun d Hin) as (Hmodule & Hsame & Hv & Hf & c & Hc & Htarget).
  apply (proj1 (In_gpu_calls (CreateShaderModule _) _ eq_refl)) in Hmodule.
  apply (proj1 (In_gpu_calls (Configure c) _ eq_refl)) in Hc.
  split; [exact Hmodule|]. do 3 (split; [assumption|]).
  exists c. split; assumption.
Qed.

(** The buffers of a run of [init]. *)
Lemma main_init_store (shadersMap : list ShaderEntry) (w : Browser) :
  let st := snd (run (Main.init shadersMap) w) in
  (length (gpuBuffers st) <= 1)%nat
  /\ (fst (run (Main.init shadersMap) w) = Returned tt ->
      gpuBuffers st = [ {| mapState := unmapped;
                           data := Stored Float32 (elements Main.vertices) |} ])
  /\ (forall d, In (CreateBuffer d) (gpu_calls (trace st)) ->
                d = {| size := 96; usage := GPUBufferUsage_VERTEX;
                       mappedAtCreation := true |}).
Proof.
  apply (wpv_run (Main.init shadersMap) w
           (fun o x =>
              (length (store x) <= 1)%nat
              /\ (o = Returned tt ->
                  store x = [ {| mapState := unmapped;
                                 data := Stored Float32 (elements Main.vertices) |} ])
              /\ (forall d, In (CreateBuffer d) (calls x) ->
                            d = {| size := 96; usage := GPUBufferUsage_VERTEX;
                                   mappedAtCreation := true |}))).
  unfold Main.init. unfold_platform. repeat wpv_step.
  all: split; [cbn; lia|]; split;
    [ intros Ho; try discriminate Ho; reflexivity
    | intros d Hd; in_cases Hd; injection Hd as <-; reflexivity ].
Qed.

(** The vertex buffer of [init].  No run allocates more than one GPU
    buffer, and the only request ever made is for 96 bytes (3 vertices
    of 32 bytes), for vertex use, mapped at creation.  After a run that
    goes through, that buffer is unmapped and holds the 24 floats of
    [vertices]. *)
Theorem init_vertex_buffer (shadersMap : list ShaderEntry) (w : Browser) :
  let st := snd (run (Main.init shadersMap) w) in
  (length (gpuBuffers st) <= 1)%nat
  /\ (forall d, In (CreateBuffer d) (trace st) ->
                size d = 3 * 32 /\ usage d = GPUBufferUsage_VERTEX
                /\ mappedAtCreation d = true)
  /\ (fst (run (Main.init shadersMap) w) = Returned tt ->
      gpuBuffers st = [ {| mapState := unmapped;
                           data := Stored Float32 (elements Main.vertices) |} ]).
Proof.
  destruct (main_init_store shadersMap w) as (Hlen & Hdone & Hreq).
  cbv zeta. split; [exact Hlen|]. split; [|exact Hdone].
  intros d Hd. apply (proj2 (In_gpu_calls (CreateBuffer d) _ eq_refl)) in Hd.
  rewrite (Hreq d Hd). repeat split.
Qed.

(** ** The shader loader of [src/unnamed/part_000] *)

Lemma wp_console_warn {B : Type} (args : list ConsoleArg) (k : unit -> M B) w st Q :
  wp (k tt) w (record_event (ConsoleWarn args) st) Q ->
  wp (bind (console_warn args) k) w st Q.
Proof. exact (fun H => H). Qed.

(** One step of a run of the older program. *)
Ltac old_step :=
  lazymatch goal with
  | |- wp (bind (console_warn _) _) _ _ _ => apply wp_console_warn
  | |- wp (try_catch _ _) _ _ _ => apply wp_try_catch
  | |- wp (bind (try_catch _ _) _) _ _ _ => apply wp_bind; apply wp_try_catch
  | _ => wp_step
  end.

(** When the page has no element with the id, the loader warns
    [Script tag with id ... not found!] and returns [undefined]; the
    lookup is the only call made. *)
Theorem part000_fetchShaderFile_missing_tag (shaderId : string) (w : Browser) (st : State) :
  faults w (QuerySelector ("#" ++ shaderId)) = None ->
  document_querySelector w ("#" ++ shaderId) = None ->
  Part000.fetchShaderFile shaderId w st
    = (Returned None,
       record_event (ConsoleWarn (tag_not_found_message shaderId))
         (record_event (QuerySelector ("#" ++ shaderId)) st)).
Proof.
  intros Hqs Hnone.
  unfold Part000.fetchShaderFile, querySelector, bind, api, ask, ret, console_warn.
  rewrite Hqs. cbv beta iota. rewrite Hnone. reflexivity.
Qed.

(** When the page has the script tag, its [src] is fetched; with an
    [ok] response the loader returns the body.  The calls are the
    lookup, [getAttribute('src')], the fetch and the reading of the
    body. *)
Theorem part000_fetchShaderFile_known (shaderId path : string) (scriptElmnt : Element)
    (w : Browser) (st : State) :
  document_querySelector w ("#" ++ shaderId) = Some scriptElmnt ->
  element_src scriptElmnt = Some path ->
  faults w (QuerySelector ("#" ++ shaderId)) = None ->
  faults w (GetAttribute "src") = None ->
  faults w (Fetch path) = None ->
  ok (network w path) = true ->
  faults w (ResponseText (url (network w path))) = None ->
  Part000.fetchShaderFile shaderId w st
    = (Returned (Some (body (network w path))),
       add_events [QuerySelector ("#" ++ shaderId); GetAttribute "src"; Fetch path;
                   ResponseText (url (network w path))] st).
Proof.
  intros Hscript Hsrc Hqs Hga Hfetch Hok Htext.
  unfold Part000.fetchShaderFile, querySelector, getAttribute, try_catch, fetch, text,
    bind, api, ask, ret, throw, console_error.
  rewrite Hqs. cbv beta iota. rewrite Hscript, Hga. cbv beta iota.
  rewrite Hsrc. change (Part000.to_request (Some path)) with path. rewrite Hfetch. cbv beta iota.
  rewrite Hok. cbn [negb]. rewrite Htext.
  unfold add_events, record_event. cbn [trace gpuBuffers].
  rewrite <- !app_assoc. reflexivity.
Qed.

(** The [src] attribute is not checked.  For a script tag without one,
    [getAttribute] gives [null] and the loader fetches the URL [null];
    it still does not throw. *)
Theorem part000_fetchShaderFile_no_src (shaderId : string) (scriptElmnt : Element)
    (w : Browser) (st : State) :
  document_querySelector w ("#" ++ shaderId) = Some scriptElmnt ->
  element_src scriptElmnt = None ->
  faults w (QuerySelector ("#" ++ shaderId)) = None ->
  faults w (GetAttribute "src") = None ->
  exists code evs,
    Part000.fetchShaderFile shaderId w st = (Returned code, add_events evs st)
    /\ fetches evs = ["null"].
Proof.
  intros Hscript Hsrc Hqs Hga.
  enough (wp (Part000.fetchShaderFile shaderId) w st
             (fun o st' => exists code evs,
                  (o, st') = (Returned code, add_events evs st)
                  /\ fetches evs = ["null"])) as H.
  { unfold wp in H. rewrite <- surjective_pairing in H. exact H. }
  unfold Part000.fetchShaderFile, querySelector, getAttribute, fetch, text.
  repeat (old_step; try no_fault; rewrite ?Hscript, ?Hsrc).
  all: do 2 eexists; split;
    [ unfold add_events, record_event; cbn [trace gpuBuffers];
      rewrite <- ?app_assoc; reflexivity
    | reflexivity ].
Qed.

(** Unlike the loader of [src/main.ts], this one can throw, but only
    from the two page lookups that come before its [try]: it throws
    [e] exactly when [querySelector] throws [e], or when the element is
    there and [getAttribute] throws [e]. *)
Theorem part000_fetchShaderFile_throws (shaderId : string) (w : Browser) (st : State)
    (e : JsError) :
  fst (Part000.fetchShaderFile shaderId w st) = Thrown e
  <-> faults w (QuerySelector ("#" ++ shaderId)) = Some e
      \/ (faults w (QuerySelector ("#" ++ shaderId)) = None
          /\ document_querySelector w ("#" ++ shaderId) <> None
          /\ faults w (GetAttribute "src") = Some e).
Proof.
  change (wp (Part000.fetchShaderFile shaderId) w st
             (fun o _ =>
                o = Thrown e
                <-> faults w (QuerySelector ("#" ++ shaderId)) = Some e
                    \/ (faults w (QuerySelector ("#" ++ shaderId)) = None
                        /\ document_querySelector w ("#" ++ shaderId) <> None
                        /\ faults w (GetAttribute "src") = Some e))).
  unfold Part000.fetchShaderFile, querySelector, getAttribute, fetch, text.
  repeat old_step.
  all: intuition congruence.
Qed.

(** ** [init] of [src/unnamed/part_000] *)

Lemma silent_Part000_fetchShaderFile shaderId : silent (Part000.fetchShaderFile shaderId).
Proof.
  apply silent_of_wp_view. intros w x.
  unfold Part000.fetchShaderFile. unfold_platform.
  repeat first [ apply wpv_try_catch | wpv_step ]; reflexivity.
Qed.

Ltac old_view_step :=
  lazymatch goal with
  | |- wp_view (bind (Part000.fetchShaderFile _) _) _ _ _ =>
      apply wpv_silent; [apply silent_Part000_fetchShaderFile | intros ? | intros ?]
  | _ => wpv_step
  end.

(** A run of the older [init] under hypotheses on the page and the
    platform. *)
Ltac run_old :=
  repeat (cbv beta iota;
          lazymatch goal with
          | H : ?v = _ |- wp (match ?v with _ => _ end) _ _ _ => rewrite H
          | H : ?v = _ |- wp (bind (match ?v with _ => _ end) _) _ _ _ => rewrite H
          | H : ?v = _ |- wp (bind (deref ?v _) _) _ _ _ => rewrite H
          | |- wp (bind (deref (Some _) _) _) _ _ _ => apply wp_deref_some
          | |- wp (bind (deref None _) _) _ _ _ => apply wp_deref_none
          | _ => old_step
          end;
          try no_fault).

(** The older [init] fails fast in the same two ways: without
    [navigator.gpu] it throws before any call; when the adapter request
    resolves to [null] it throws with that request as the only call. *)
Theorem part000_init_fails_fast (w : Browser) :
  (navigator_gpu w = None ->
   run Part000.init w = (Thrown (Error "WebGPU not supported."), initial_state))
  /\
  (forall gpu, navigator_gpu w = Some gpu ->
     faults w RequestAdapter = None -> gpu_adapter gpu = None ->
     run Part000.init w = (Thrown (Error "Couldn't request WebGPU adapter."),
                           record_event RequestAdapter initial_state)).
Proof.
  split.
  - intros Hgpu. unfold run, Part000.init, bind, ask. rewrite Hgpu. reflexivity.
  - intros gpu Hgpu Hok Hnull.
    unfold run, Part000.init, bind, ask, requestAdapter, api, bind. rewrite Hgpu.
    rewrite Hok. simpl. rewrite Hnull. reflexivity.
Qed.

(** On a page without the canvas the older [init] behaves like the new
    one: it logs [No canvas found to render to!] and then throws the
    [TypeError] of reading [getContext] of [null].  By then it has
    requested the adapter and the device and created the shader module,
    and nothing else on the GPU. *)
Theorem part000_init_missing_canvas (w : Browser) (gpu : GPU) (adapter : GPUAdapter) :
  navigator_gpu w = Some gpu -> gpu_adapter gpu = Some adapter ->
  (forall c, faults w c = None) ->
  document_querySelector w "#webgpu-canvas" = None ->
  exists st,
    run Part000.init w
      = (Thrown (TypeError "Cannot read properties of null (reading 'getContext')"), st)
    /\ (exists before,
           trace st = (before ++ [QuerySelector "#webgpu-canvas";
                                  ConsoleError [ArgString "No canvas found to render to!"]])%list)
    /\ exists shader_demo,
        gpu_calls (trace st)
        = [RequestAdapter; RequestDevice adapter; CreateShaderModule {| code := shader_demo |}].
Proof.
  intros Hgpu Hadapter Hquiet Hcanvas.
  enough (wp Part000.init w initial_state
             (fun o st =>
                o = Thrown (TypeError "Cannot read properties of null (reading 'getContext')")
                /\ (exists before,
                       trace st = (before ++ [QuerySelector "#webgpu-canvas";
                                              ConsoleError [ArgString "No canvas found to render to!"]])%list)
                /\ exists shader_demo,
                    gpu_calls (trace st)
                    = [RequestAdapter; RequestDevice adapter;
                       CreateShaderModule {| code := shader_demo |}])) as H.
  { unfold wp in H. exists (snd (run Part000.init w)). destruct H as (Ho & Htr & Hcalls).
    repeat split; try assumption. rewrite <- Ho. apply surjective_pairing. }
  unfold Part000.init, Part000.fetchShaderFile. unfold_platform. run_old.
  all: split; [reflexivity|]; split;
    [ eexists; cbn [trace record_event]; rewrite <- app_assoc; reflexivity
    | eexists; reflexivity ].
Qed.

(** The GPU calls of a complete run.  A run of the older [init] that
    goes through has made exactly the twenty calls of [part000_calls],
    in that order: the buffer is created unmapped, for vertex use and
    as a copy destination, and filled by one [writeBuffer] of the 24
    floats; the pipeline has [layout: "auto"]; no viewport is set. *)
Theorem part000_init_calls (w : Browser) :
  fst (run Part000.init w) = Returned tt ->
  exists gpu adapter canvas context shader_demo,
    navigator_gpu w = Some gpu /\ gpu_adapter gpu = Some adapter
    /\ document_querySelector w "#webgpu-canvas" = Some canvas
    /\ element_context canvas = Some context
    /\ gpu_calls (trace (snd (run Part000.init w)))
       = part000_calls gpu adapter context shader_demo.
Proof.
  apply (wpv_run Part000.init w
           (fun o x =>
              o = Returned tt ->
              exists gpu adapter canvas context shader_demo,
                navigator_gpu w = Some gpu /\ gpu_adapter gpu = Some adapter
                /\ document_querySelector w "#webgpu-canvas" = Some canvas
                /\ element_context canvas = Some context
                /\ calls x = part000_calls gpu adapter context shader_demo)).
  unfold Part000.init. unfold_platform. repeat old_view_step.
  all: try (intros Hdone; discriminate Hdone).
  all: try match goal with H : None = Some _ |- _ => discriminate H end.
  intros _.
  repeat match goal with H : Some _ = Some _ |- _ => injection H as <- end.
  do 5 eexists. do 4 (split; [first [reflexivity | eassumption]|]). reflexivity.
Qed.

(** The buffers of a run of the older [init]. *)
Lemma part000_init_store (w : Browser) :
  let st := snd (run Part000.init w) in
  (length (gpuBuffers st) <= 1)%nat
  /\ (fst (run Part000.init w) = Returned tt ->
      gpuBuffers st = [ {| mapState := unmapped;
                           data := Stored Float32 (elements Part000.vertices) |} ])
  /\ (forall e, In e (gpu_calls (trace st)) ->
        match e with
        | CreateBuffer d =>
            d = {| size := 96; usage := Z.lor GPUBufferUsage_VERTEX GPUBufferUsage_COPY_DST;
                   mappedAtCreation := false |}
        | WriteBuffer i bufferOffset source dataOffset count =>
            i = 0%nat /\ bufferOffset = 0 /\ source = Part000.vertices
            /\ dataOffset = 0 /\ count = 24
        | GetMappedRange _ | Unmap _ => False
        | _ => True
        end).
Proof.
  apply (wpv_run Part000.init w
           (fun o x =>
              (length (store x) <= 1)%nat
              /\ (o = Returned tt ->
                  store x = [ {| mapState := unmapped;
                                 data := Stored Float32 (elements Part000.vertices) |} ])
              /\ (forall e, In e (calls x) ->
                    match e with
                    | CreateBuffer d =>
                        d = {| size := 96;
                               usage := Z.lor GPUBufferUsage_VERTEX GPUBufferUsage_COPY_DST;
                               mappedAtCreation := false |}
                    | WriteBuffer i bufferOffset source dataOffset count =>
                        i = 0%nat /\ bufferOffset = 0 /\ source = Part000.vertices
                        /\ dataOffset = 0 /\ count = 24
                    | GetMappedRange _ | Unmap _ => False
                    | _ => True
                    end))).
  unfold Part000.init. unfold_platform. repeat old_view_step.
  all: split; [cbn; lia|]; split;
    [ intros Ho; try discriminate Ho; reflexivity
    | intros e' He'; cbn [In] in He';
      repeat (destruct He' as [<-|He']; [repeat split|]); contradiction ].
Qed.

(** The vertex buffer of the older [init].  No run allocates more than
    one GPU buffer; the only request ever made is for 96 bytes, for
    vertex use and as a copy destination, not mapped; the buffer is
    never mapped or unmapped, and the only write is one [writeBuffer]
    of all 24 floats of [vertices] at offset 0.  After a run that goes
    through, the buffer holds those floats. *)
Theorem part000_init_vertex_buffer (w : Browser) :
  let st := snd (run Part000.init w) in
  (length (gpuBuffers st) <= 1)%nat
  /\ (forall d, In (CreateBuffer d) (trace st) ->
                size d = 3 * 32
                /\ usage d = Z.lor GPUBufferUsage_VERTEX GPUBufferUsage_COPY_DST
                /\ mappedAtCreation d = false)
  /\ (forall i, ~ In (GetMappedRange i) (trace st) /\ ~ In (Unmap i) (trace st))
  /\ (forall i bufferOffset source dataOffset count,
        In (WriteBuffer i bufferOffset source dataOffset count) (trace st) ->
        i = 0%nat /\ bufferOffset = 0 /\ source = Part000.vertices
        /\ dataOffset = 0 /\ count = array_length Part000.vertices)
  /\ (fst (run Part000.init w) = Returned tt ->
      gpuBuffers st = [ {| mapState := unmapped;
                           data := Stored Float32 (elements Part000.vertices) |} ]).
Proof.
  destruct (part000_init_store w) as (Hlen & Hdone & Hcalls).
  cbv zeta. split; [exact Hlen|]. split; [|split; [|split; [|exact Hdone]]].
  - intros d Hd. apply (proj2 (In_gpu_calls (CreateBuffer d) _ eq_refl)) in Hd.
    rewrite (Hcalls _ Hd). repeat split.
  - intros i. split; intros Hi.
    + apply (proj2 (In_gpu_calls (GetMappedRange i) _ eq_refl)) in Hi.
      exact (Hcalls _ Hi).
    + apply (proj2 (In_gpu_calls (Unmap i) _ eq_refl)) in Hi.
      exact (Hcalls _ Hi).
  - intros i bufferOffset source dataOffset count Hwrite.
    apply (proj2 (In_gpu_calls (WriteBuffer _ _ _ _ _) _ eq_refl)) in Hwrite.
    exact (Hcalls _ Hwrite).
Qed.

(** ** The two versions *)

(** The rewrite of the buffer set-up kept what the GPU is given.  When
    a run of the [init] of [src/main.ts] and a run of the [init] of
    [src/unnamed/part_000] both go through, they leave the same buffer
    store (one unmapped buffer with the 24 floats), and have made the
    same draws and the same queue submissions. *)
Theorem inits_agree (shadersMap : list ShaderEntry) (w w' : Browser) :
  fst (run (Main.init shadersMap) w) = Returned tt ->
  fst (run Part000.init w') = Returned tt ->
  gpuBuffers (snd (run (Main.init shadersMap) w)) = gpuBuffers (snd (run Part000.init w'))
  /\ draws (trace (snd (run (Main.init shadersMap) w)))
     = draws (trace (snd (run Part000.init w')))
  /\ submissions (trace (snd (run (Main.init shadersMap) w)))
     = submissions (trace (snd (run Part000.init w'))).
Proof.
  intros Hnew Hold.
  destruct (main_init_store shadersMap w) as (_ & Hstore & _).
  destruct (part000_init_store w') as (_ & Hstore' & _).
  destruct (wpo_run _ _ _ (init_observed shadersMap w)) as (_ & _ & _ & Hseen).
  destruct (wpo_run _ _ _ (part000_init_observed w')) as (_ & _ & _ & Hseen').
  destruct (Hseen Hnew) as (_ & Hdraws & Hsub).
  destruct (Hseen' Hold) as (_ & Hdraws' & Hsub').
  cbn [observed seen_draws seen_submissions] in *.
  rewrite (Hstore Hnew), (Hstore' Hold), Hdraws, Hdraws', Hsub, Hsub'.
  repeat split.
Qed.

(** ** The GPU calls of [init] of [src/main.ts] *)

(** The GPU calls of a complete run.  A run of [init] that goes
    through has made exactly the twenty-three calls of [main_calls], in
    that order: the canvas is configured as a render attachment, the
    buffer is created mapped, for vertex use, and unmapped after the
    copy; the pipeline gets the layout made by [createPipelineLayout]
    with no bind-group layouts; the viewport is the canvas. *)
Theorem init_calls (shadersMap : list ShaderEntry) (w : Browser) :
  fst (run (Main.init shadersMap) w) = Returned tt ->
  exists gpu adapter canvas context shader_demo,
    navigator_gpu w = Some gpu /\ gpu_adapter gpu = Some adapter
    /\ document_querySelector w "#webgpu-canvas" = Some canvas
    /\ element_context canvas = Some context
    /\ gpu_calls (trace (snd (run (Main.init shadersMap) w)))
       = main_calls gpu adapter canvas context shader_demo.
Proof.
  apply (wpv_run (Main.init shadersMap) w
           (fun o x =>
              o = Returned tt ->
              exists gpu adapter canvas context shader_demo,
                navigator_gpu w = Some gpu /\ gpu_adapter gpu = Some adapter
                /\ document_querySelector w "#webgpu-canvas" = Some canvas
                /\ element_context canvas = Some context
                /\ calls x = main_calls gpu adapter canvas context shader_demo)).
  unfold Main.init. unfold_platform. repeat wpv_step.
  all: try (intros Hdone; discriminate Hdone).
  all: try match goal with H : None = Some _ |- _ => discriminate H end.
  intros _.
  repeat match goal with H : Some _ = Some _ |- _ => injection H as <- end.
  do 5 eexists. do 4 (split; [first [reflexivity | eassumption]|]). reflexivity.
Qed.

(** ** More theorems on concrete pages *)

(** An [Int8Array] of four elements: the call throws and the buffer it
    made stays mapped. *)
Lemma createGPUBuffer_throw_leaves_mapped_witness :
  mapState <$>
    gpuBuffers (snd (Main.createGPUBuffer the_device int8_four GPUBufferUsage_VERTEX
                       good_browser initial_state)) !! 0%nat
  = Some mapped.
Proof.
  apply (createGPUBuffer_throw_leaves_mapped the_device int8_four GPUBufferUsage_VERTEX
           good_browser initial_state _ (RangeError "offset is out of bounds"));
    reflexivity.
Defined.

(** An [Int32Array] of two elements gets its buffer, with the error
    logged. *)
Lemma createGPUBuffer_fallback_only_wide_witness :
  (elementType int32_two = Int32 \/ elementType int32_two = Float64
   \/ elements int32_two = [])
  /\ exists evs,
      trace (snd (Main.createGPUBuffer the_device int32_two GPUBufferUsage_VERTEX
                    good_browser initial_state))
        = (trace initial_state ++ evs)%list
      /\ console_errors evs = [unhandled_message].
Proof.
  apply (createGPUBuffer_fallback_only_wide the_device int32_two GPUBufferUsage_VERTEX
           good_browser initial_state _
           {| buffer_id := 0; buffer_size := 8; buffer_usage := GPUBufferUsage_VERTEX |});
    reflexivity.
Defined.

(** A [Float64Array] of two elements: 16 bytes, stored as float32
    values. *)
Lemma createGPUBuffer_fallback_wide_numbers_witness :
  Main.createGPUBuffer the_device float64_two GPUBufferUsage_VERTEX good_browser initial_state
    = (Returned {| buffer_id := 0; buffer_size := 16; buffer_usage := GPUBufferUsage_VERTEX |},
       {| trace := [CreateBuffer {| size := 16; usage := GPUBufferUsage_VERTEX;
                                    mappedAtCreation := true |};
                    GetMappedRange 0;
                    ConsoleError unhandled_message; Unmap 0];
          gpuBuffers := [{| mapState := unmapped;
                            data := Stored Float32 (elements float64_two) |}] |}).
Proof.
  apply (createGPUBuffer_fallback_wide_numbers the_device float64_two GPUBufferUsage_VERTEX
           good_browser initial_state);
    [right; reflexivity | reflexivity ..].
Defined.

(** The vertices, then an index array. *)
Lemma createGPUBuffer_twice_witness :
  (b1 <- Main.createGPUBuffer the_device Main.vertices GPUBufferUsage_VERTEX ;;
   b2 <- Main.createGPUBuffer the_device uint16_two GPUBufferUsage_COPY_DST ;;
   ret (b1, b2)) good_browser initial_state
    = (Returned ({| buffer_id := 0; buffer_size := 96; buffer_usage := GPUBufferUsage_VERTEX |},
                 {| buffer_id := 1; buffer_size := 4; buffer_usage := GPUBufferUsage_COPY_DST |}),
       {| trace :=
            [CreateBuffer {| size := 96; usage := GPUBufferUsage_VERTEX;
                             mappedAtCreation := true |};
             GetMappedRange 0; Unmap 0;
             CreateBuffer {| size := 4; usage := GPUBufferUsage_COPY_DST;
                             mappedAtCreation := true |};
             GetMappedRange 1; Unmap 1];
          gpuBuffers :=
            [{| mapState := unmapped; data := Stored Float32 (elements Main.vertices) |};
             {| mapState := unmapped; data := Stored Uint16 (elements uint16_two) |}] |}).
Proof.
  apply (createGPUBuffer_twice the_device Main.vertices uint16_two
           GPUBufferUsage_VERTEX GPUBufferUsage_COPY_DST good_browser initial_state);
    reflexivity.
Defined.

(** Of two entries for [demo], the first is fetched. *)
Lemma fetchShaderFile_first_match_witness :
  exists evs,
    trace (snd (Main.fetchShaderFile duplicate_shadersMap "demo" good_browser initial_state))
      = (trace initial_state ++ evs)%list
    /\ fetches evs = ["shaders/demo.wgsl"].
Proof.
  apply (fetchShaderFile_first_match []
           [ {| id := "demo"; src := "shaders/other.wgsl" |} ]
           {| id := "demo"; src := "shaders/demo.wgsl" |} good_browser initial_state);
    [simpl; tauto | discriminate].
Defined.

(** The demo shader on a browser that cannot read the body. *)
Lemma fetchShaderFile_text_failure_witness :
  Main.fetchShaderFile demo_shadersMap "demo" browser_text_fails initial_state
    = (Returned None,
       record_event
         (ConsoleError (fetch_failed_message "demo" (TypeError "Failed to fetch")))
         (record_event (ResponseText "shaders/demo.wgsl")
            (record_event (Fetch "shaders/demo.wgsl") initial_state))).
Proof.
  apply (fetchShaderFile_text_failure demo_shadersMap "demo" "shaders/demo.wgsl"
           (TypeError "Failed to fetch") browser_text_fails initial_state);
    [reflexivity | discriminate | reflexivity ..].
Defined.

(** A registry entry with an empty path. *)
Lemma fetchShaderFile_empty_src_witness :
  Main.fetchShaderFile [ {| id := "demo"; src := EmptyString |} ] "demo"
    good_browser initial_state
    = (Returned None, record_event (ConsoleError (not_found_message "demo")) initial_state).
Proof.
  apply (fetchShaderFile_empty_src [ {| id := "demo"; src := EmptyString |} ] "demo"
           good_browser initial_state).
  reflexivity.
Defined.

(** The demo page with a canvas that gives no WebGPU context. *)
Lemma init_null_context_witness :
  exists st,
    run (Main.init demo_shadersMap) browser_null_context
      = (Thrown (TypeError "Cannot read properties of null (reading 'configure')"), st)
    /\ (exists before,
           trace st = (before ++ [QuerySelector "#webgpu-canvas"; GetContext "webgpu"])%list)
    /\ forall c, ~ In (Configure c) (trace st).
Proof.
  apply (init_null_context demo_shadersMap browser_null_context the_gpu
           {| adapter_device := the_device |}
           {| width := 640; height := 480; element_context := None; element_src := None |});
    reflexivity.
Defined.

(** The demo page with a registry that points to a file the server
    does not have. *)
Lemma init_fetch_failure_goes_on_witness :
  exists rest,
    trace (snd (run (Main.init [ {| id := "demo"; src := "shaders/missing.wgsl" |} ])
                  good_browser))
      = ([RequestAdapter; RequestDevice {| adapter_device := the_device |};
          Fetch "shaders/missing.wgsl";
          ConsoleError (fetch_failed_message "demo" (Error "Network response was not ok."));
          CreateShaderModule {| code := None |}] ++ rest)%list.
Proof.
  apply (init_fetch_failure_goes_on
           [ {| id := "demo"; src := "shaders/missing.wgsl" |} ] good_browser the_gpu
           {| adapter_device := the_device |} "shaders/missing.wgsl"
           (Error "Network response was not ok."));
    [reflexivity | reflexivity | reflexivity | reflexivity | reflexivity | discriminate
    | right; repeat split; reflexivity].
Defined.

(** The render pass of the demo page's run. *)
Lemma init_render_pass_witness :
  exists canvas context pipeline,
    document_querySelector good_browser "#webgpu-canvas" = Some canvas
    /\ element_context canvas = Some context
    /\ exists before,
        trace (snd (run (Main.init demo_shadersMap) good_browser))
        = (before ++
             [CreateRenderPipeline pipeline;
              CreateCommandEncoder;
              GetCurrentTexture;
              CreateView;
              BeginRenderPass
                {| colorAttachments :=
                     [ {| clearValue := Main.clearColor;
                          loadOp := "clear";
                          storeOp := "store";
                          view := CurrentTextureView context |} ] |};
              SetViewport 0 0 (width canvas) (height canvas) 0 1;
              SetPipeline pipeline;
              SetVertexBuffer 0 0;
              Draw 3;
              End;
              Finish;
              Submit [CommandBuffer CommandEncoder]])%list.
Proof.
  apply (init_render_pass demo_shadersMap good_browser). reflexivity.
Defined.

(** The pipeline of the demo page's run. *)
Lemma init_pipeline_uses_loaded_shader_witness :
  In (CreateShaderModule {| code := Some demo_wgsl |})
     (trace (snd (run (Main.init demo_shadersMap) good_browser)))
  /\ fragment_module (fragment demo_pipelineDescriptor) = {| code := Some demo_wgsl |}
  /\ entryPoint (vertex demo_pipelineDescriptor) = "vertex_main"
  /\ fragment_entryPoint (fragment demo_pipelineDescriptor) = "fragment_main"
  /\ exists c, In (Configure c) (trace (snd (run (Main.init demo_shadersMap) good_browser)))
               /\ targets (fragment demo_pipelineDescriptor)
                  = [ {| target_format := cfg_format c |} ].
Proof.
  apply (init_pipeline_uses_loaded_shader demo_shadersMap good_browser
           demo_pipelineDescriptor).
  vm_compute. do 14 right. left. reflexivity.
Defined.

(** The older loader on the demo page, for an id that no element has. *)
Lemma part000_fetchShaderFile_missing_tag_witness :
  Part000.fetchShaderFile "shader-other" good_browser initial_state
    = (Returned None,
       record_event (ConsoleWarn (tag_not_found_message "shader-other"))
         (record_event (QuerySelector "#shader-other") initial_state)).
Proof.
  apply (part000_fetchShaderFile_missing_tag "shader-other" good_browser initial_state);
    reflexivity.
Defined.

(** The older loader on the demo page's script tag. *)
Lemma part000_fetchShaderFile_known_witness :
  Part000.fetchShaderFile "shader-demo" good_browser initial_state
    = (Returned (Some demo_wgsl),
       add_events [QuerySelector "#shader-demo"; GetAttribute "src";
                   Fetch "shaders/demo.wgsl"; ResponseText "shaders/demo.wgsl"]
         initial_state).
Proof.
  apply (part000_fetchShaderFile_known "shader-demo" "shaders/demo.wgsl" the_script
           good_browser initial_state);
    reflexivity.
Defined.

(** The older loader on a script tag without [src]. *)
Lemma part000_fetchShaderFile_no_src_witness :
  exists code evs,
    Part000.fetchShaderFile "shader-demo" browser_bare_script initial_state
      = (Returned code, add_events evs initial_state)
    /\ fetches evs = ["null"].
Proof.
  apply (part000_fetchShaderFile_no_src "shader-demo" bare_script
           browser_bare_script initial_state);
    reflexivity.
Defined.

(** The older loader for an id that does not make a selector. *)
Lemma part000_fetchShaderFile_throws_witness :
  fst (Part000.fetchShaderFile "3d" browser_bad_selector initial_state)
    = Thrown (DOMException "SyntaxError").
Proof.
  apply (proj2 (part000_fetchShaderFile_throws "3d" browser_bad_selector initial_state
                  (DOMException "SyntaxError"))).
  left. reflexivity.
Defined.

(** The older [init] on a browser without WebGPU and on one without an
    adapter. *)
Lemma part000_init_fails_fast_witness :
  run Part000.init browser_without_gpu
    = (Thrown (Error "WebGPU not supported."), initial_state)
  /\ run Part000.init browser_without_adapter
    = (Thrown (Error "Couldn't request WebGPU adapter."),
       record_event RequestAdapter initial_state).
Proof.
  split.
  - apply (proj1 (part000_init_fails_fast browser_without_gpu)). reflexivity.
  - apply (proj2 (part000_init_fails_fast browser_without_adapter)
             {| gpu_adapter := None; gpu_preferredCanvasFormat := "bgra8unorm" |});
      reflexivity.
Defined.

(** The older [init] on the page without the canvas. *)
Lemma part000_init_missing_canvas_witness :
  exists st,
    run Part000.init browser_without_canvas
      = (Thrown (TypeError "Cannot read properties of null (reading 'getContext')"), st)
    /\ (exists before,
           trace st = (before ++ [QuerySelector "#webgpu-canvas";
                                  ConsoleError [ArgString "No canvas found to render to!"]])%list)
    /\ exists shader_demo,
        gpu_calls (trace st)
        = [RequestAdapter; RequestDevice {| adapter_device := the_device |};
           CreateShaderModule {| code := shader_demo |}].
Proof.
  apply (part000_init_missing_canvas browser_without_canvas the_gpu
           {| adapter_device := the_device |}); reflexivity.
Defined.

(** The GPU calls of the older [init] on the demo page. *)
Lemma part000_init_calls_witness :
  exists gpu adapter canvas context shader_demo,
    navigator_gpu good_browser = Some gpu /\ gpu_adapter gpu = Some adapter
    /\ document_querySelector good_browser "#webgpu-canvas" = Some canvas
    /\ element_context canvas = Some context
    /\ gpu_calls (trace (snd (run Part000.init good_browser)))
       = part000_calls gpu adapter context shader_demo.
Proof.
  apply (part000_init_calls good_browser). reflexivity.
Defined.

(** Both versions on the demo page. *)
Lemma inits_agree_witness :
  gpuBuffers (snd (run (Main.init demo_shadersMap) good_browser))
    = gpuBuffers (snd (run Part000.init good_browser))
  /\ draws (trace (snd (run (Main.init demo_shadersMap) good_browser)))
     = draws (trace (snd (run Part000.init good_browser)))
  /\ submissions (trace (snd (run (Main.init demo_shadersMap) good_browser)))
     = submissions (trace (snd (run Part000.init good_browser))).
Proof.
  apply (inits_agree demo_shadersMap good_browser good_browser); reflexivity.
Defined.

(** The vertices on a store that holds one buffer already: the new
    buffer is the second, the first is kept. *)
Lemma createGPUBuffer_keeps_other_buffers_witness :
  let st := {| trace := []; gpuBuffers := [ {| mapState := mapped; data := Zeroed |} ] |} in
  let run := Main.createGPUBuffer the_device Main.vertices GPUBufferUsage_VERTEX
               good_browser st in
  buffer_id {| buffer_id := 1; buffer_size := 96; buffer_usage := GPUBufferUsage_VERTEX |}
    = length (gpuBuffers st)
  /\ length (gpuBuffers (snd run)) = S (length (gpuBuffers st)).
Proof.
  cbv zeta.
  apply (proj2 (proj2 (createGPUBuffer_keeps_other_buffers
                         the_device Main.vertices GPUBufferUsage_VERTEX good_browser
                         {| trace := [];
                            gpuBuffers := [ {| mapState := mapped; data := Zeroed |} ] |}))).
  reflexivity.
Defined.

(** The vertex buffer after the demo page's run. *)
Lemma init_vertex_buffer_witness :
  gpuBuffers (snd (run (Main.init demo_shadersMap) good_browser))
    = [ {| mapState := unmapped; data := Stored Float32 (elements Main.vertices) |} ].
Proof.
  apply (proj2 (proj2 (init_vertex_buffer demo_shadersMap good_browser))). reflexivity.
Defined.

(** The vertex buffer after the older program's run on the demo page. *)
Lemma part000_init_vertex_buffer_witness :
  gpuBuffers (snd (run Part000.init good_browser))
    = [ {| mapState := unmapped; data := Stored Float32 (elements Part000.vertices) |} ].
Proof.
  apply (proj2 (proj2 (proj2 (proj2 (part000_init_vertex_buffer good_browser))))).
  reflexivity.
Defined.

(** The GPU calls of [init] on the demo page. *)
Lemma init_calls_witness :
  exists gpu adapter canvas context shader_demo,
    navigator_gpu good_browser = Some gpu /\ gpu_adapter gpu = Some adapter
    /\ document_querySelector good_browser "#webgpu-canvas" = Some canvas
    /\ element_context canvas = Some context
    /\ gpu_calls (trace (snd (run (Main.init demo_shadersMap) good_browser)))
       = main_calls gpu adapter canvas context shader_demo.
Proof.
  apply (init_calls demo_shadersMap good_browser). reflexivity.
Defined.
